(** * graphql_requests: the GraphQL session of [graphql_requests.py]

    A shallow embedding of [GraphQLSession] (attribute delegation in
    [__getattr__], request construction and validation in [query]) and the
    properties of its specification.

    Python values are a small universe [pyval]; dictionaries keep their
    insertion order (association lists), because [json.dumps] and the loop over
    [files.values()] observe it.  The [requests] session held in [_session] and
    [json.dumps] are external collaborators: the former is a record of its
    attributes together with an oracle for the answers of its methods, the
    latter a function that may fail.  Every method call on the [requests]
    session is appended to a log, which is the only state. *)

From Stdlib Require Import String Ascii List Bool Arith Lia.
From stdpp Require Import base decidable list gmap strings pretty.
Import ListNotations.
Local Open Scope list_scope.
Local Open Scope string_scope.

(** ** Python values *)

Set Warnings "-register-all".

Inductive pyval : Type :=
| PNone
| PBool (b : bool)
| PInt (z : Z)
| PStr (s : string)
| PTuple (l : list pyval)
| PList (l : list pyval)
| PDict (d : list (string * pyval))   (* keys in insertion order *)
| PObj (cls : string) (id : nat).     (* an opaque object of class [cls]: a file object, a Response *)

(** [bool(v)], as [if v:] and [not v] use it.  An opaque object defines neither
    [__bool__] nor [__len__] and is therefore true. *)
Definition truthy (v : pyval) : bool :=
  match v with
  | PNone => false
  | PBool b => b
  | PInt z => negb (Z.eqb z 0)
  | PStr s => negb (Nat.eqb (String.length s) 0)
  | PTuple l | PList l => negb (Nat.eqb (List.length l) 0)
  | PDict d => negb (Nat.eqb (List.length d) 0)
  | PObj _ _ => true
  end.

(** The name Python prints for the type of a value. *)
Definition type_name (v : pyval) : string :=
  match v with
  | PNone => "NoneType"
  | PBool _ => "bool"
  | PInt _ => "int"
  | PStr _ => "str"
  | PTuple _ => "tuple"
  | PList _ => "list"
  | PDict _ => "dict"
  | PObj cls _ => cls
  end.

(** ** Exceptions and the monad of a method body *)

Inductive exn : Type :=
| ValueError (msg : string)
| TypeError (msg : string)
| AttributeError (msg : string)
| KeyError (key : string)
| LibraryError (e : pyval).   (* raised inside [json] or [requests] *)

Inductive outcome (A : Type) : Type :=
| Ok (a : A)
| Raise (e : exn).
Arguments Ok {A} a.
Arguments Raise {A} e.

(** One method call on the [requests] session: the method's name, the
    positional arguments and the keyword arguments in the order given. *)
Inductive event : Type :=
| Call (name : string) (args : list pyval) (kwargs : list (string * pyval)).

Definition log := list event.

Definition M (A : Type) : Type := log -> outcome A * log.

Definition ret {A} (a : A) : M A := fun st => (Ok a, st).
Definition raise {A} (e : exn) : M A := fun st => (Raise e, st).
Definition bind {A B} (m : M A) (k : A -> M B) : M B :=
  fun st => match m st with
            | (Ok a, st') => k a st'
            | (Raise e, st') => (Raise e, st')
            end.

Declare Scope py_scope.
Delimit Scope py_scope with py.
Notation "x <- m ;; k" := (bind m (fun x => k))
  (at level 100, m at next level, right associativity) : py_scope.
Notation "m ;; k" := (bind m (fun _ => k))
  (at level 100, right associativity) : py_scope.
Local Open Scope py_scope.

(** [if c: body] with no [else]. *)
Definition when (c : bool) (body : M unit) : M unit :=
  if c then body else ret tt.

(** [for x in xs: body x]. *)
Fixpoint for_each {A} (xs : list A) (body : A -> M unit) : M unit :=
  match xs with
  | [] => ret tt
  | x :: rest => body x ;; for_each rest body
  end.

(** ** Built-in operations *)

(** [len(v)]. *)
Definition len (v : pyval) : M nat :=
  match v with
  | PStr s => ret (String.length s)
  | PTuple l | PList l => ret (List.length l)
  | PDict d => ret (List.length d)
  | _ => raise (TypeError ("object of type '" ++ type_name v ++ "' has no len()"))
  end.

Definition no_attribute (v : pyval) (name : string) : exn :=
  AttributeError ("'" ++ type_name v ++ "' object has no attribute '" ++ name ++ "'").

(** [v.keys()] and [v.values()]. *)
Definition keys (v : pyval) : M (list string) :=
  match v with
  | PDict d => ret (map fst d)
  | _ => raise (no_attribute v "keys")
  end.

Definition values (v : pyval) : M (list pyval) :=
  match v with
  | PDict d => ret (map snd d)
  | _ => raise (no_attribute v "values")
  end.

(** [set(ks)]. *)
Definition set_of (ks : list string) : gset string := list_to_set ks.

(** [d[k]] and [d[k] = v] on the entries of a dictionary. *)
Fixpoint dict_get (d : list (string * pyval)) (k : string) : option pyval :=
  match d with
  | [] => None
  | (k', v) :: rest => if String.eqb k' k then Some v else dict_get rest k
  end.

Fixpoint dict_set (d : list (string * pyval)) (k : string) (v : pyval)
  : list (string * pyval) :=
  match d with
  | [] => [(k, v)]
  | (k', v') :: rest =>
      if String.eqb k' k then (k', v) :: rest else (k', v') :: dict_set rest k v
  end.

(** [v[k]]. *)
Definition getitem (v : pyval) (k : string) : M pyval :=
  match v with
  | PDict d => match dict_get d k with
               | Some x => ret x
               | None => raise (KeyError k)
               end
  | _ => raise (TypeError ("'" ++ type_name v ++ "' object is not subscriptable"))
  end.

(** [{key: value key for key in ks}]. *)
Fixpoint dict_comprehension (ks : list string) (value : string -> M pyval)
  (acc : list (string * pyval)) : M (list (string * pyval)) :=
  match ks with
  | [] => ret acc
  | key :: rest => v <- value key ;; dict_comprehension rest value (dict_set acc key v)
  end.

(** [needle in hay] on strings. *)
Definition contains (needle hay : string) : bool :=
  match String.index 0 needle hay with
  | Some _ => true
  | None => false
  end.

(** ** The collaborators: [requests.Session] and [json] *)

(** What library code gives back: a value, or an exception of its own. *)
Inductive answer (A : Type) : Type :=
| Returns (a : A)
| Fails (e : pyval).
Arguments Returns {A} a.
Arguments Fails {A} e.

Definition from_library {A} (r : answer A) : M A :=
  match r with
  | Returns a => ret a
  | Fails e => raise (LibraryError e)
  end.

(** An attribute of the [requests] session is a plain value or a method. *)
Inductive member : Type :=
| Data (v : pyval)
| Method.

Record Session : Type := {
  session_attr : string -> option member;        (* [None]: no such attribute *)
  session_answer : log -> event -> answer pyval  (* what a method call gives, after the calls made so far *)
}.

(** [hasattr(c, name)]. *)
Definition hasattr (c : Session) (name : string) : bool :=
  match session_attr c name with
  | Some _ => true
  | None => false
  end.

Record GraphQLSession : Type := {
  _uri : string;
  _session : Session
}.

(** What [getattr] on the [requests] session gives: the value of a data
    attribute, or a method bound to the session. *)
Inductive session_obj : Type :=
| Plain (v : pyval)
| BoundMethod (c : Session) (name : string).

(** What [__getattr__] gives: an attribute of the [requests] session as it is,
    or the function [f] it defines, closed over [self] and [item]. *)
Inductive pyobj : Type :=
| Delegated (o : session_obj)
| Closure_f (self : GraphQLSession) (item : string).

(** [getattr(c, name)]. *)
Definition getattr (c : Session) (name : string) : M session_obj :=
  match session_attr c name with
  | Some (Data v) => ret (Plain v)
  | Some Method => ret (BoundMethod c name)
  | None => raise (AttributeError ("'Session' object has no attribute '" ++ name ++ "'"))
  end.

(** The call of a method of the [requests] session: it is logged, and the
    session answers. *)
Definition perform (c : Session) (ev : event) : M pyval :=
  fun st => (match session_answer c st ev with
             | Returns v => Ok v
             | Fails e => Raise (LibraryError e)
             end, (st ++ [ev])%list).

Definition not_callable (v : pyval) : exn :=
  TypeError ("'" ++ type_name v ++ "' object is not callable").

(** [o(args, kwargs)] for an attribute [o] of the [requests] session. *)
Definition call_session_obj (o : session_obj) (args : list pyval)
  (kwargs : list (string * pyval)) : M pyval :=
  match o with
  | Plain v => raise (not_callable v)
  | BoundMethod c name => perform c (Call name args kwargs)
  end.

(** ** The class [GraphQLSession] *)

Section GraphQLSession.

(** [json.dumps]. *)
Variable json_dumps : pyval -> answer string.

Definition _HTTP_VERBS : list string :=
  ["get"; "post"; "put"; "patch"; "delete"; "options"; "head"].

(** [__init__]; [new_session] is what [Session()] constructs. *)
Definition __init__ (new_session : Session) (uri : string) : GraphQLSession :=
  {| _uri := uri; _session := new_session |}.

(** The function [f] of [__getattr__]: the attribute is looked up again when
    [f] is called, and called with the URL of this session in front. *)
Definition f (self : GraphQLSession) (item : string) (args : list pyval)
  (kwargs : list (string * pyval)) : M pyval :=
  m <- getattr (_session self) item ;;
  call_session_obj m (PStr (_uri self) :: args) kwargs.

(** Python runs [__getattr__] when the ordinary lookup on the instance and its
    class finds no attribute [item]. *)
Definition __getattr__ (self : GraphQLSession) (item : string) : M pyobj :=
  (* sanity check: does the attribute exist? *)
  when (negb (hasattr (_session self) item))
    (raise (AttributeError ("The Session class has no attribute '" ++ item ++ "'"))) ;;
  (* use this session's URL for the HTTP request *)
  if bool_decide (item ∈ _HTTP_VERBS) then
    ret (Closure_f self item)
  else
    (* just delegate to the requests session *)
    o <- getattr (_session self) item ;;
    ret (Delegated o).

(** Calling what attribute access gave. *)
Definition call (o : pyobj) (args : list pyval) (kwargs : list (string * pyval))
  : M pyval :=
  match o with
  | Delegated m => call_session_obj m args kwargs
  | Closure_f self item => f self item args kwargs
  end.

Definition msg_file_map_requires : string :=
  "The file_map argument requires the variables and files arguments".
Definition msg_files_requires : string :=
  "The files argument requires the variables and file_map arguments".
Definition msg_same_keys : string :=
  "The file map and the files dictionary must have the same keys".
Definition msg_3_tuples : string :=
  "The values of the files directory must be " ++
  "3-tuples with the filename, the file object and " ++
  "the content type".

(** The body of [query], block by block. *)

(** sanity check: have all required arguments been supplied? *)
Definition check_supplied (variables file_map files : pyval) : M unit :=
  when (truthy file_map)
    (when (negb (truthy variables) || negb (truthy files))
       (raise (ValueError msg_file_map_requires))) ;;
  when (truthy files)
    (when (negb (truthy variables) || negb (truthy file_map))
       (raise (ValueError msg_files_requires))).

(** sanity check: are the files and the file map consistent? *)
Definition check_consistent (file_map files : pyval) : M unit :=
  when (truthy file_map && truthy files)
    (ks <- keys file_map ;;
     let file_map_keys := set_of ks in
     ks' <- keys files ;;
     let file_keys := set_of ks' in
     when (negb (bool_decide (file_map_keys = file_keys)))
       (raise (ValueError msg_same_keys))).

(** sanity check: are the file values complete?  First the body of the loop,
    then the check. *)
Definition check_value (value : pyval) : M unit :=
  n <- len value ;;
  when (negb (Nat.eqb n 3)) (raise (ValueError msg_3_tuples)).

Definition check_complete (files : pyval) : M unit :=
  when (truthy files)
    (vs <- values files ;;
     for_each vs check_value).

(** query without file upload *)
Definition query_without_upload (self : GraphQLSession) (query_string : string)
  (variables : pyval) : M pyval :=
  let payload := [("query", PStr query_string)] in
  let payload := if truthy variables
                 then dict_set payload "variables" variables
                 else payload in
  post <- getattr (_session self) "post" ;;
  call_session_obj post [PStr (_uri self)] [("json", PDict payload)].

(** query with file upload *)
Definition query_with_upload (self : GraphQLSession) (query_string : string)
  (variables file_map files : pyval) : M pyval :=
  let operations := PDict [("query", PStr query_string);
                           ("variables", variables)] in
  ops <- from_library (json_dumps operations) ;;
  mp <- from_library (json_dumps file_map) ;;
  let data := PDict [("operations", PStr ops); ("map", PStr mp)] in
  ks <- keys files ;;
  file_data <- dict_comprehension ks (fun key => getitem files key) [] ;;
  post <- getattr (_session self) "post" ;;
  call_session_obj post [PStr (_uri self)]
    [("data", data); ("files", PDict file_data)].

(** [query(query_string, variables=None, file_map=None, files=None)]; an
    argument left out is [PNone]. *)
Definition query (self : GraphQLSession) (query_string : string)
  (variables file_map files : pyval) : M pyval :=
  check_supplied variables file_map files ;;
  check_consistent file_map files ;;
  check_complete files ;;
  no_files <- (if negb (truthy files) then ret true
               else n <- len files ;; ret (Nat.eqb n 0)) ;;
  if no_files : bool
  then query_without_upload self query_string variables
  else query_with_upload self query_string variables file_map files.

End GraphQLSession.

(** ** The property [auth] *)

(** The getter: [return self._session.auth]. *)
Definition auth (self : GraphQLSession) : M session_obj :=
  getattr (_session self) "auth".

(** The assignment [c.name = v] on the [requests] session, as a relation
    between the session before and after: the attribute is there with that
    value, the other attributes are as they were.  How the session answers
    afterwards is its own affair. *)
Inductive setattr (c : Session) (name : string) (v : pyval) : Session -> Prop :=
| setattr_intro (c' : Session) :
    (forall n, session_attr c' n
               = if String.eqb n name then Some (Data v) else session_attr c n) ->
    setattr c name v c'.

(** The setter: [self._session.auth = auth]; the object [self] holds the same
    URL and the session after the assignment. *)
Inductive auth_setter (self : GraphQLSession) (v : pyval) : GraphQLSession -> Prop :=
| auth_setter_intro (c' : Session) :
    setattr (_session self) "auth" v c' ->
    auth_setter self v {| _uri := _uri self; _session := c' |}.

(** ** What the specification calls things *)

(** A value with exactly three components, as [len] counts them. *)
Definition three_components (v : pyval) : bool :=
  match v with
  | PStr s => Nat.eqb (String.length s) 3
  | PTuple l | PList l => Nat.eqb (List.length l) 3
  | PDict d => Nat.eqb (List.length d) 3
  | _ => false
  end.

(** A value that has a length at all. *)
Definition sized (v : pyval) : bool :=
  match v with
  | PStr _ | PTuple _ | PList _ | PDict _ => true
  | _ => false
  end.

(** Invariants 1 and 2: a file map or files that are there come with both
    companions. *)
Definition presence_ok (variables file_map files : pyval) : bool :=
  implb (truthy file_map) (truthy variables && truthy files) &&
  implb (truthy files) (truthy variables && truthy file_map).

(** Invariant 3: the file map and the files have the same keys. *)
Definition keys_ok (file_map files : pyval) : bool :=
  implb (truthy file_map && truthy files)
    match file_map, files with
    | PDict fm, PDict fs => bool_decide (set_of (map fst fm) = set_of (map fst fs))
    | _, _ => false
    end.

(** Invariant 4: every entry of the files has three components. *)
Definition shape_ok (files : pyval) : bool :=
  implb (truthy files)
    match files with
    | PDict fs => forallb three_components (map snd fs)
    | _ => false
    end.

(** The validation errors of [query]. *)
Definition InvalidArguments (e : exn) : Prop :=
  e = ValueError msg_file_map_requires \/ e = ValueError msg_files_requires.
Definition InconsistentFileMap (e : exn) : Prop := e = ValueError msg_same_keys.
Definition MalformedFileEntry (e : exn) : Prop := e = ValueError msg_3_tuples.

(** A computation that neither reads nor extends the log. *)
Definition stateless {A} (m : M A) : Prop :=
  exists r, forall st, m st = (r, st).

(** Steps 1 to 3 of the algorithm: the three checks in the order of [query]. *)
Definition validation (variables file_map files : pyval) : M unit :=
  check_supplied variables file_map files ;;
  check_consistent file_map files ;;
  check_complete files.

(** A computation that raises no [ValueError]. *)
Definition no_value_error {A} (m : M A) : Prop :=
  forall st msg, fst (m st) <> Raise (ValueError msg).

(** Either an exception and the log as it was, or one call on a session. *)
Definition one_call (m : M pyval) : Prop :=
  forall st, (exists e, m st = (Raise e, st)) \/ (exists c ev, m st = perform c ev st).

(** ** A reference encoder and a test session

    [json.dumps] with its default options on [pyval], characters taken as code
    points below 256, and a [requests] session that answers every call with one
    and the same response.  The theorems hold for every encoder and every
    session; these two serve the examples. *)

Definition dquote : string := String "034"%char EmptyString.

Definition hex_digit (n : nat) : string :=
  String.substring n 1 "0123456789abcdef".

(** One character inside a JSON string, non-printable and non-ASCII ones
    escaped. *)
Definition json_char (c : ascii) : string :=
  let n := nat_of_ascii c in
  if Nat.eqb n 34 then "\" ++ dquote
  else if Nat.eqb n 92 then "\\"
  else if Nat.eqb n 8 then "\b"
  else if Nat.eqb n 9 then "\t"
  else if Nat.eqb n 10 then "\n"
  else if Nat.eqb n 12 then "\f"
  else if Nat.eqb n 13 then "\r"
  else if Nat.ltb n 32 || Nat.ltb 126 n
       then "\u00" ++ hex_digit (n / 16) ++ hex_digit (n mod 16)
  else String c EmptyString.

Fixpoint json_chars (s : string) : string :=
  match s with
  | EmptyString => EmptyString
  | String c rest => json_char c ++ json_chars rest
  end.

Definition json_string (s : string) : string := dquote ++ json_chars s ++ dquote.

(** The [TypeError] of an object that is not JSON serializable. *)
Definition not_serializable : pyval := PObj "TypeError" 0.

Fixpoint json_encode (v : pyval) : answer string :=
  match v with
  | PNone => Returns "null"
  | PBool b => Returns (if b then "true" else "false")
  | PInt z => Returns (pretty z)
  | PStr s => Returns (json_string s)
  | PTuple l | PList l =>
      match (fix items (l : list pyval) : answer (list string) :=
               match l with
               | [] => Returns []
               | x :: rest =>
                   match json_encode x, items rest with
                   | Returns a, Returns b => Returns (a :: b)
                   | Fails e, _ | _, Fails e => Fails e
                   end
               end) l with
      | Returns parts => Returns ("[" ++ String.concat ", " parts ++ "]")
      | Fails e => Fails e
      end
  | PDict d =>
      match (fix items (d : list (string * pyval)) : answer (list string) :=
               match d with
               | [] => Returns []
               | (k, x) :: rest =>
                   match json_encode x, items rest with
                   | Returns a, Returns b => Returns ((json_string k ++ ": " ++ a) :: b)
                   | Fails e, _ | _, Fails e => Fails e
                   end
               end) d with
      | Returns parts => Returns ("{" ++ String.concat ", " parts ++ "}")
      | Fails e => Fails e
      end
  | PObj _ _ => Fails not_serializable
  end.

(** A session with the verbs and a few settings of [requests.Session]; every
    call returns one and the same response. *)
Definition test_session : Session := {|
  session_attr name :=
    if bool_decide (name ∈ ["get"; "options"; "head"; "post"; "put"; "patch";
                            "delete"; "request"; "send"; "close"])
    then Some Method
    else if String.eqb name "auth" then Some (Data PNone)
    else if String.eqb name "verify" then Some (Data (PBool true))
    else if String.eqb name "max_redirects" then Some (Data (PInt 30))
    else None;
  session_answer _ _ := Returns (PObj "Response" 200)
|}.

Definition TEST_URI : string := "http://fvmdolr.ac.za".

(** The same session with no server to reach: every call fails with a
    [ConnectionError] of [requests]. *)
Definition offline_session : Session := {|
  session_attr := session_attr test_session;
  session_answer _ _ := Fails (PObj "ConnectionError" 0)
|}.

(** * Properties *)

(** ** The tests of the repository, run on the model *)

Example test_simple_query_works :
  query json_encode (__init__ test_session TEST_URI) "query hello" PNone PNone PNone []
  = (Ok (PObj "Response" 200),
     [Call "post" [PStr TEST_URI] [("json", PDict [("query", PStr "query hello")])]]).
Proof. reflexivity. Qed.

Example test_map_requires_variables_and_files :
  Forall (fun '(variables, files) =>
            query json_encode (__init__ test_session TEST_URI) "some query"
              variables (PDict [("a", PStr "b")]) files []
            = (Raise (ValueError msg_file_map_requires), []))
    [(PNone, PNone);
     (PDict [("c", PStr "d")], PNone);
     (PNone, PDict [("c", PStr "d")])].
Proof. repeat constructor. Qed.

Example test_files_requires_variables_and_file_map :
  query json_encode (__init__ test_session TEST_URI) "some query"
    PNone PNone (PDict [("a", PStr "b")]) []
  = (Raise (ValueError msg_files_requires), []) /\
  query json_encode (__init__ test_session TEST_URI) "some query"
    (PDict [("c", PStr "d")]) PNone (PDict [("a", PStr "b")]) []
  = (Raise (ValueError msg_files_requires), []) /\
  query json_encode (__init__ test_session TEST_URI) "some query"
    PNone (PDict [("c", PStr "d")]) (PDict [("a", PStr "b")]) []
  = (Raise (ValueError msg_file_map_requires), []).
Proof. repeat split. Qed.

Example test_call_http_verbs_with_url :
  Forall (fun http_verb =>
            let session := __init__ test_session TEST_URI in
            __getattr__ session http_verb [] = (Ok (Closure_f session http_verb), []) /\
            call (Closure_f session http_verb) [] [] []
            = (Ok (PObj "Response" 200), [Call http_verb [PStr TEST_URI] []]))
    _HTTP_VERBS.
Proof. repeat constructor. Qed.

Example json_encode_operations :
  json_encode (PDict [("query", PStr "{ a }");
                      ("variables", PDict [("n", PInt (-2)); ("file", PNone);
                                           ("tags", PList [PStr "x"; PBool true])])])
  = Returns ("{" ++ dquote ++ "query" ++ dquote ++ ": " ++ dquote ++ "{ a }" ++ dquote
             ++ ", " ++ dquote ++ "variables" ++ dquote ++ ": {"
             ++ dquote ++ "n" ++ dquote ++ ": -2, "
             ++ dquote ++ "file" ++ dquote ++ ": null, "
             ++ dquote ++ "tags" ++ dquote ++ ": [" ++ dquote ++ "x" ++ dquote
             ++ ", true]}}").
Proof. reflexivity. Qed.

(** ** Stateless computations *)

Lemma stateless_ret {A} (a : A) : stateless (ret a).
Proof. by exists (Ok a). Qed.

Lemma stateless_raise {A} (e : exn) : stateless (@raise A e).
Proof. by exists (Raise e). Qed.

Lemma stateless_bind {A B} (m : M A) (k : A -> M B) :
  stateless m -> (forall a, stateless (k a)) -> stateless (bind m k).
Proof.
  intros [r Hm] Hk. destruct r as [a|e].
  - destruct (Hk a) as [r' Hr']. exists r'. intros st.
    unfold bind. by rewrite Hm, Hr'.
  - exists (Raise e). intros st. unfold bind. by rewrite Hm.
Qed.

Lemma stateless_when c body : stateless body -> stateless (when c body).
Proof. destruct c; [done | intros _; apply stateless_ret]. Qed.

Lemma stateless_for_each {A} (xs : list A) body :
  (forall x, stateless (body x)) -> stateless (for_each xs body).
Proof.
  intros Hb. induction xs as [|x xs IH]; simpl.
  - apply stateless_ret.
  - apply stateless_bind; [apply Hb | intros _; exact IH].
Qed.

Lemma stateless_len v : stateless (len v).
Proof. destruct v; simpl; (apply stateless_ret || apply stateless_raise). Qed.

Lemma stateless_keys v : stateless (keys v).
Proof. destruct v; simpl; (apply stateless_ret || apply stateless_raise). Qed.

Lemma stateless_values v : stateless (values v).
Proof. destruct v; simpl; (apply stateless_ret || apply stateless_raise). Qed.

Lemma stateless_getitem v k : stateless (getitem v k).
Proof.
  destruct v; simpl; try apply stateless_raise.
  destruct (dict_get d k); (apply stateless_ret || apply stateless_raise).
Qed.

Lemma stateless_from_library {A} (r : answer A) : stateless (from_library r).
Proof. destruct r; simpl; (apply stateless_ret || apply stateless_raise). Qed.

Lemma stateless_getattr c name : stateless (getattr c name).
Proof.
  unfold getattr. destruct (session_attr c name) as [[v|]|];
    (apply stateless_ret || apply stateless_raise).
Qed.

Lemma stateless_dict_comprehension ks value acc :
  (forall k, stateless (value k)) -> stateless (dict_comprehension ks value acc).
Proof.
  intros Hv. revert acc. induction ks as [|k ks IH]; intros acc; simpl.
  - apply stateless_ret.
  - apply stateless_bind; [apply Hv | intros v; apply IH].
Qed.

Lemma stateless_check_supplied variables file_map files :
  stateless (check_supplied variables file_map files).
Proof.
  unfold check_supplied.
  apply stateless_bind; [| intros _]; do 2 apply stateless_when; apply stateless_raise.
Qed.

Lemma stateless_check_consistent file_map files :
  stateless (check_consistent file_map files).
Proof.
  unfold check_consistent. apply stateless_when.
  apply stateless_bind; [apply stateless_keys | intros ks].
  apply stateless_bind; [apply stateless_keys | intros ks'].
  apply stateless_when, stateless_raise.
Qed.

Lemma stateless_check_complete files : stateless (check_complete files).
Proof.
  unfold check_complete. apply stateless_when.
  apply stateless_bind; [apply stateless_values | intros vs].
  apply stateless_for_each. intros v. unfold check_value.
  apply stateless_bind; [apply stateless_len | intros n].
  apply stateless_when, stateless_raise.
Qed.

(** A stateless computation that is followed by another one. *)
Lemma bind_stateless_ok {A B} (m : M A) (k : A -> M B) a st st' :
  stateless m -> m st' = (Ok a, st') -> bind m k st = k a st.
Proof.
  intros [r Hr] H. rewrite Hr in H. injection H as ->.
  unfold bind. by rewrite Hr.
Qed.

Lemma bind_stateless_raise {A B} (m : M A) (k : A -> M B) e st st' :
  stateless m -> m st' = (Raise e, st') -> bind m k st = (Raise e, st).
Proof.
  intros [r Hr] H. rewrite Hr in H. injection H as ->.
  unfold bind. by rewrite Hr.
Qed.

(** ** The three sanity checks *)

Lemma check_supplied_run variables file_map files st :
  check_supplied variables file_map files st =
  (if presence_ok variables file_map files then Ok tt
   else Raise (ValueError (if truthy file_map then msg_file_map_requires
                           else msg_files_requires)), st).
Proof.
  unfold check_supplied, presence_ok, when, bind, ret, raise.
  destruct (truthy file_map), (truthy variables), (truthy files); reflexivity.
Qed.

Lemma check_consistent_run fm fs st :
  check_consistent (PDict fm) (PDict fs) st =
  (if keys_ok (PDict fm) (PDict fs) then Ok tt
   else Raise (ValueError msg_same_keys), st).
Proof.
  unfold check_consistent, keys_ok, when, bind.
  destruct (truthy (PDict fm) && truthy (PDict fs)); simpl; [| reflexivity].
  unfold ret. case_bool_decide; reflexivity.
Qed.

Lemma check_consistent_absent file_map files st :
  truthy file_map && truthy files = false ->
  check_consistent file_map files st = (Ok tt, st).
Proof. intros H. unfold check_consistent. by rewrite H. Qed.

Lemma check_consistent_inv file_map files st st' :
  check_consistent file_map files st = (Ok tt, st') -> keys_ok file_map files = true.
Proof.
  unfold keys_ok. destruct (truthy file_map && truthy files) eqn:Ht; [| done].
  simpl. destruct file_map, files; try done;
    try (unfold check_consistent; rewrite Ht; discriminate).
  rewrite check_consistent_run. unfold keys_ok. rewrite Ht. simpl.
  by case_bool_decide.
Qed.

Lemma len_sized v st :
  sized v = true ->
  exists n, len v st = (Ok n, st) /\ Nat.eqb n 3 = three_components v.
Proof. destruct v; try done; intros _; eexists; split; reflexivity. Qed.

Lemma len_unsized v st :
  sized v = false -> exists msg, len v st = (Raise (TypeError msg), st).
Proof. destruct v; try done; intros _; eexists; reflexivity. Qed.

Lemma three_components_sized v : three_components v = true -> sized v = true.
Proof. by destruct v. Qed.

Lemma shape_loop_ok vs st :
  forallb three_components vs = true -> for_each vs check_value st = (Ok tt, st).
Proof.
  induction vs as [|v vs IH]; simpl; [done |].
  intros [Hv Hvs]%andb_prop.
  destruct (len_sized v st (three_components_sized v Hv)) as (n & Hn & H3).
  unfold bind at 1. unfold check_value at 1. unfold bind.
  rewrite Hn, H3, Hv. simpl. by apply IH.
Qed.

Lemma shape_loop_bad vs st :
  forallb sized vs = true -> forallb three_components vs = false ->
  for_each vs check_value st = (Raise (ValueError msg_3_tuples), st).
Proof.
  induction vs as [|v vs IH]; simpl; [done |].
  intros [Hv Hvs]%andb_prop H.
  destruct (len_sized v st Hv) as (n & Hn & H3).
  unfold bind at 1. unfold check_value at 1. unfold bind.
  rewrite Hn, H3. destruct (three_components v); simpl in *; [by apply IH | done].
Qed.

Lemma shape_loop_inv vs st st' :
  for_each vs check_value st = (Ok tt, st') -> forallb three_components vs = true.
Proof.
  revert st. induction vs as [|v vs IH]; simpl; [done |]. intros st.
  unfold bind at 1. unfold check_value at 1. unfold bind.
  destruct (sized v) eqn:Hs.
  - destruct (len_sized v st Hs) as (n & Hn & H3). rewrite Hn, H3.
    destruct (three_components v); simpl; [apply IH | discriminate].
  - destruct (len_unsized v st Hs) as (msg & Hn). rewrite Hn. discriminate.
Qed.

Lemma check_complete_absent files st :
  truthy files = false -> check_complete files st = (Ok tt, st).
Proof. intros H. unfold check_complete. by rewrite H. Qed.

Lemma check_complete_ok fs st :
  forallb three_components (map snd fs) = true ->
  check_complete (PDict fs) st = (Ok tt, st).
Proof.
  intros H. unfold check_complete, when.
  destruct (truthy (PDict fs)); [| done].
  unfold bind, values, ret. by apply shape_loop_ok.
Qed.

Lemma check_complete_bad fs st :
  forallb sized (map snd fs) = true ->
  forallb three_components (map snd fs) = false ->
  check_complete (PDict fs) st = (Raise (ValueError msg_3_tuples), st).
Proof.
  intros Hs H. unfold check_complete, when.
  destruct (truthy (PDict fs)) eqn:Ht.
  - unfold bind, values, ret. by apply shape_loop_bad.
  - destruct fs; [done | discriminate].
Qed.

Lemma check_complete_inv files st st' :
  check_complete files st = (Ok tt, st') -> shape_ok files = true.
Proof.
  unfold shape_ok, check_complete, when.
  destruct (truthy files); [| done]. simpl.
  destruct files; try discriminate.
  unfold bind, values, ret. apply shape_loop_inv.
Qed.

(** ** Dictionaries *)

Lemma dict_get_app_fresh acc d k :
  k ∉ map fst acc -> dict_get (acc ++ d)%list k = dict_get d k.
Proof.
  induction acc as [|[k' v'] acc IH]; simpl; [done |].
  intros [Hne Hacc]%not_elem_of_cons.
  destruct (String.eqb_spec k' k); [congruence | by apply IH].
Qed.

Lemma dict_set_fresh acc k v :
  k ∉ map fst acc -> dict_set acc k v = (acc ++ [(k, v)])%list.
Proof.
  induction acc as [|[k' v'] acc IH]; simpl; [done |].
  intros [Hne Hacc]%not_elem_of_cons.
  destruct (String.eqb_spec k' k); [congruence | by rewrite IH].
Qed.

Lemma dict_get_head k v d : dict_get ((k, v) :: d) k = Some v.
Proof. simpl. by rewrite String.eqb_refl. Qed.

(** Copying a dictionary key by key gives the dictionary back. *)
Lemma dict_comprehension_copy acc rest st :
  NoDup (map fst (acc ++ rest)%list) ->
  dict_comprehension (map fst rest) (fun key => getitem (PDict (acc ++ rest)%list) key)
    acc st = (Ok (acc ++ rest)%list, st).
Proof.
  revert acc. induction rest as [|[k v] rest IH]; intros acc Hnd; simpl.
  - by rewrite app_nil_r.
  - assert (Hk : k ∉ map fst acc).
    { rewrite map_app in Hnd. apply NoDup_app in Hnd as (_ & Hd & _).
      intros Hin. apply (Hd k Hin). simpl. left. }
    unfold bind, getitem.
    rewrite (dict_get_app_fresh acc _ k Hk), dict_get_head. unfold ret at 1.
    rewrite (dict_set_fresh acc k v Hk).
    specialize (IH (acc ++ [(k, v)])%list).
    rewrite <- app_assoc in IH. simpl in IH. by apply IH.
Qed.

Lemma dict_comprehension_files fs st :
  NoDup (map fst fs) ->
  dict_comprehension (map fst fs) (fun key => getitem (PDict fs) key) [] st
  = (Ok fs, st).
Proof. intros H. by apply (dict_comprehension_copy [] fs st). Qed.

(** ** At most one call, after the checks *)

Lemma one_call_bind {A} (m : M A) (k : A -> M pyval) :
  stateless m -> (forall a, one_call (k a)) -> one_call (bind m k).
Proof.
  intros [r Hr] Hk st. unfold bind. rewrite Hr. destruct r as [a|e].
  - apply Hk.
  - left. by exists e.
Qed.

Lemma one_call_call_session_obj o args kwargs :
  one_call (call_session_obj o args kwargs).
Proof.
  intros st. destruct o as [v|c name]; simpl.
  - left. by eexists.
  - right. by exists c, (Call name args kwargs).
Qed.

Lemma one_call_query_without_upload self q variables :
  one_call (query_without_upload self q variables).
Proof.
  unfold query_without_upload.
  apply one_call_bind; [apply stateless_getattr | intros post].
  apply one_call_call_session_obj.
Qed.

Lemma one_call_query_with_upload json_dumps self q variables file_map files :
  one_call (query_with_upload json_dumps self q variables file_map files).
Proof.
  unfold query_with_upload.
  apply one_call_bind; [apply stateless_from_library | intros ops].
  apply one_call_bind; [apply stateless_from_library | intros mp].
  apply one_call_bind; [apply stateless_keys | intros ks].
  apply one_call_bind;
    [apply stateless_dict_comprehension; intros k; apply stateless_getitem
    | intros file_data].
  apply one_call_bind; [apply stateless_getattr | intros post].
  apply one_call_call_session_obj.
Qed.

Lemma perform_run c ev st :
  perform c ev st = (match session_answer c st ev with
                     | Returns v => Ok v
                     | Fails e => Raise (LibraryError e)
                     end, (st ++ [ev])%list).
Proof. reflexivity. Qed.

Lemma log_grows (st : log) ev : (st ++ [ev])%list <> st.
Proof.
  intros H. apply (f_equal (@List.length event)) in H.
  rewrite length_app in H. simpl in H. lia.
Qed.

(** Every run of [query] ends in an exception with the log as it was, or has
    passed the three checks and made one call. *)
Lemma query_outcomes json_dumps self q variables file_map files st :
  (exists e, query json_dumps self q variables file_map files st = (Raise e, st)) \/
  (presence_ok variables file_map files = true /\
   keys_ok file_map files = true /\
   shape_ok files = true /\
   exists c ev, query json_dumps self q variables file_map files st = perform c ev st).
Proof.
  unfold query.
  destruct (stateless_check_supplied variables file_map files) as [r1 H1].
  destruct (stateless_check_consistent file_map files) as [r2 H2].
  destruct (stateless_check_complete files) as [r3 H3].
  destruct r1 as [[]|e];
    [| left; exists e; apply (bind_stateless_raise _ _ e st st); [by eexists | apply H1]].
  rewrite (bind_stateless_ok _ _ tt st st (stateless_check_supplied _ _ _) (H1 st)).
  destruct r2 as [[]|e];
    [| left; exists e; apply (bind_stateless_raise _ _ e st st); [by eexists | apply H2]].
  rewrite (bind_stateless_ok _ _ tt st st (stateless_check_consistent _ _) (H2 st)).
  destruct r3 as [[]|e];
    [| left; exists e; apply (bind_stateless_raise _ _ e st st); [by eexists | apply H3]].
  rewrite (bind_stateless_ok _ _ tt st st (stateless_check_complete _) (H3 st)).
  assert (Hp : presence_ok variables file_map files = true).
  { specialize (H1 st). rewrite check_supplied_run in H1.
    destruct (presence_ok variables file_map files); [done | discriminate]. }
  pose proof (check_consistent_inv _ _ _ _ (H2 st)) as Hk.
  pose proof (check_complete_inv _ _ _ (H3 st)) as Hs.
  assert (Hd : one_call
    (no_files <- (if negb (truthy files) then ret true
                  else n <- len files ;; ret (Nat.eqb n 0)) ;;
     if no_files : bool
     then query_without_upload self q variables
     else query_with_upload json_dumps self q variables file_map files)).
  { apply one_call_bind.
    - destruct (negb (truthy files)); [apply stateless_ret |].
      apply stateless_bind; [apply stateless_len | intros n; apply stateless_ret].
    - intros [|]; [apply one_call_query_without_upload
                  | apply one_call_query_with_upload]. }
  destruct (Hd st) as [[e He] | Hc].
  - left. exists e. exact He.
  - right. split; [exact Hp |]. split; [exact Hk |]. split; [exact Hs | exact Hc].
Qed.

(** ** Running [query] through its checks *)

Section Query.

Variable json_dumps : pyval -> answer string.
Variable self : GraphQLSession.
Variable q : string.

Lemma query_raise_supplied variables file_map files st :
  presence_ok variables file_map files = false ->
  query json_dumps self q variables file_map files st =
  (Raise (ValueError (if truthy file_map then msg_file_map_requires
                      else msg_files_requires)), st).
Proof.
  intros H. unfold query.
  apply (bind_stateless_raise _ _ _ st st (stateless_check_supplied _ _ _)).
  by rewrite check_supplied_run, H.
Qed.

Lemma query_raise_consistent variables file_map files e st :
  presence_ok variables file_map files = true ->
  check_consistent file_map files st = (Raise e, st) ->
  query json_dumps self q variables file_map files st = (Raise e, st).
Proof.
  intros H1 H2. unfold query.
  rewrite (bind_stateless_ok _ _ tt st st (stateless_check_supplied _ _ _));
    [| by rewrite check_supplied_run, H1].
  by apply (bind_stateless_raise _ _ _ st st (stateless_check_consistent _ _)).
Qed.

Lemma query_raise_complete variables file_map files e st :
  presence_ok variables file_map files = true ->
  check_consistent file_map files st = (Ok tt, st) ->
  check_complete files st = (Raise e, st) ->
  query json_dumps self q variables file_map files st = (Raise e, st).
Proof.
  intros H1 H2 H3. unfold query.
  rewrite (bind_stateless_ok _ _ tt st st (stateless_check_supplied _ _ _));
    [| by rewrite check_supplied_run, H1].
  rewrite (bind_stateless_ok _ _ tt st st (stateless_check_consistent _ _) H2).
  by apply (bind_stateless_raise _ _ _ st st (stateless_check_complete _)).
Qed.

(** With no files to speak of, the query goes out without upload. *)
Lemma query_checked_no_files variables file_map files st :
  presence_ok variables file_map files = true ->
  truthy files = false ->
  query json_dumps self q variables file_map files st =
  query_without_upload self q variables st.
Proof.
  intros H1 Hf. unfold query.
  rewrite (bind_stateless_ok _ _ tt st st (stateless_check_supplied _ _ _));
    [| by rewrite check_supplied_run, H1].
  rewrite (bind_stateless_ok _ _ tt st st (stateless_check_consistent _ _));
    [| apply check_consistent_absent; rewrite Hf; apply andb_false_r].
  rewrite (bind_stateless_ok _ _ tt st st (stateless_check_complete _));
    [| by apply check_complete_absent].
  rewrite Hf. reflexivity.
Qed.

(** With files that passed the checks, it goes out with upload. *)
Lemma query_checked_files variables file_map fs st :
  presence_ok variables file_map (PDict fs) = true ->
  check_consistent file_map (PDict fs) st = (Ok tt, st) ->
  check_complete (PDict fs) st = (Ok tt, st) ->
  fs <> [] ->
  query json_dumps self q variables file_map (PDict fs) st =
  query_with_upload json_dumps self q variables file_map (PDict fs) st.
Proof.
  intros H1 H2 H3 Hf. unfold query.
  rewrite (bind_stateless_ok _ _ tt st st (stateless_check_supplied _ _ _));
    [| by rewrite check_supplied_run, H1].
  rewrite (bind_stateless_ok _ _ tt st st (stateless_check_consistent _ _) H2).
  rewrite (bind_stateless_ok _ _ tt st st (stateless_check_complete _) H3).
  destruct fs; [done | reflexivity].
Qed.

End Query.

(** ** Where a [ValueError] can come from *)

Lemma no_value_error_bind {A B} (m : M A) (k : A -> M B) :
  no_value_error m -> (forall a, no_value_error (k a)) -> no_value_error (bind m k).
Proof.
  intros Hm Hk st msg. unfold bind.
  specialize (Hm st msg). destruct (m st) as [[a|e] st']; simpl in *.
  - apply Hk.
  - intros [= ->]. by apply Hm.
Qed.

Lemma no_value_error_getattr c name : no_value_error (getattr c name).
Proof.
  intros st msg. unfold getattr.
  by destruct (session_attr c name) as [[v|]|].
Qed.

Lemma no_value_error_call_session_obj o args kwargs :
  no_value_error (call_session_obj o args kwargs).
Proof.
  intros st msg. destruct o as [v|c name]; simpl; [done |].
  by destruct (session_answer c st _).
Qed.

Lemma no_value_error_from_library {A} (r : answer A) :
  no_value_error (from_library r).
Proof. intros st msg. by destruct r. Qed.

Lemma no_value_error_keys v : no_value_error (keys v).
Proof. intros st msg. by destruct v. Qed.

Lemma no_value_error_getitem v k : no_value_error (getitem v k).
Proof.
  intros st msg. destruct v; try done. simpl. by destruct (dict_get d k).
Qed.

Lemma no_value_error_dict_comprehension ks value acc :
  (forall k, no_value_error (value k)) ->
  no_value_error (dict_comprehension ks value acc).
Proof.
  intros Hv. revert acc. induction ks as [|k ks IH]; intros acc; simpl.
  - by intros st msg.
  - apply no_value_error_bind; [apply Hv | intros v; apply IH].
Qed.

Lemma no_value_error_query_without_upload self q variables :
  no_value_error (query_without_upload self q variables).
Proof.
  unfold query_without_upload.
  apply no_value_error_bind; [apply no_value_error_getattr | intros post].
  apply no_value_error_call_session_obj.
Qed.

Lemma no_value_error_query_with_upload json_dumps self q variables file_map files :
  no_value_error (query_with_upload json_dumps self q variables file_map files).
Proof.
  unfold query_with_upload.
  apply no_value_error_bind; [apply no_value_error_from_library | intros ops].
  apply no_value_error_bind; [apply no_value_error_from_library | intros mp].
  apply no_value_error_bind; [apply no_value_error_keys | intros ks].
  apply no_value_error_bind;
    [apply no_value_error_dict_comprehension; intros k; apply no_value_error_getitem
    | intros file_data].
  apply no_value_error_bind; [apply no_value_error_getattr | intros post].
  apply no_value_error_call_session_obj.
Qed.

(** ** Strings *)

Lemma substring_skip pre s n :
  String.substring (String.length pre) n (pre ++ s) = String.substring 0 n s.
Proof. induction pre as [|c pre IH]; simpl; [done | exact IH]. Qed.

Lemma substring_prefix s suf :
  String.substring 0 (String.length s) (s ++ suf) = s.
Proof.
  induction s as [|c s IH]; simpl.
  - by destruct suf.
  - by rewrite IH.
Qed.

(** A string occurs in every text built around it. *)
Lemma contains_infix pre s suf : contains s (pre ++ s ++ suf) = true.
Proof.
  unfold contains. destruct (String.index 0 s (pre ++ s ++ suf)) eqn:Hi; [done |].
  exfalso. destruct s as [|c s].
  - apply String.index_correct4 in Hi. lia.
  - apply (String.index_correct3 0 (String.length pre)) in Hi; [| done | lia].
    apply Hi. by rewrite substring_skip, substring_prefix.
Qed.

Lemma check_consistent_keys_ok file_map files st :
  keys_ok file_map files = true -> check_consistent file_map files st = (Ok tt, st).
Proof.
  unfold keys_ok. destruct (truthy file_map && truthy files) eqn:Ht; simpl.
  - destruct file_map, files; try done. intros H.
    rewrite check_consistent_run. unfold keys_ok. by rewrite Ht, H.
  - intros _. by apply check_consistent_absent.
Qed.

Lemma check_complete_shape_ok files st :
  shape_ok files = true -> check_complete files st = (Ok tt, st).
Proof.
  unfold shape_ok. destruct (truthy files) eqn:Ht; simpl.
  - destruct files; try done. apply check_complete_ok.
  - intros _. by apply check_complete_absent.
Qed.

Lemma check_consistent_raises file_map files st st' msg :
  check_consistent file_map files st = (Raise (ValueError msg), st') ->
  msg = msg_same_keys /\ keys_ok file_map files = false.
Proof.
  intros H. destruct (keys_ok file_map files) eqn:Hk.
  - rewrite (check_consistent_keys_ok _ _ _ Hk) in H. discriminate.
  - split; [| done]. revert H. unfold check_consistent, when.
    destruct (truthy file_map && truthy files); [| discriminate].
    destruct file_map, files; try discriminate.
    unfold bind, keys, ret, raise. by case_bool_decide; intros [= <-].
Qed.

Lemma shape_loop_raises vs st st' msg :
  for_each vs check_value st = (Raise (ValueError msg), st') -> msg = msg_3_tuples.
Proof.
  revert st. induction vs as [|v vs IH]; simpl; [discriminate |]. intros st.
  unfold bind at 1. unfold check_value at 1. unfold bind.
  destruct (sized v) eqn:Hs.
  - destruct (len_sized v st Hs) as (n & Hn & H3). rewrite Hn, H3.
    destruct (three_components v); simpl; [apply IH | by intros [= <-]].
  - destruct (len_unsized v st Hs) as (m & Hn). rewrite Hn. discriminate.
Qed.

Lemma check_complete_raises files st st' msg :
  check_complete files st = (Raise (ValueError msg), st') ->
  msg = msg_3_tuples /\ shape_ok files = false.
Proof.
  intros H. destruct (shape_ok files) eqn:Hk.
  - rewrite (check_complete_shape_ok _ _ Hk) in H. discriminate.
  - split; [| done]. revert H. unfold check_complete, when.
    destruct (truthy files); [| discriminate].
    destruct files; try discriminate.
    unfold bind, values, ret. apply shape_loop_raises.
Qed.

(** A [ValueError] of [query] is the verdict of one of the three checks. *)
Lemma query_value_error json_dumps self q variables file_map files st msg :
  fst (query json_dumps self q variables file_map files st) = Raise (ValueError msg) ->
  (presence_ok variables file_map files = false /\
   msg = if truthy file_map then msg_file_map_requires else msg_files_requires) \/
  (presence_ok variables file_map files = true /\
   keys_ok file_map files = false /\ msg = msg_same_keys) \/
  (presence_ok variables file_map files = true /\
   keys_ok file_map files = true /\
   shape_ok files = false /\ msg = msg_3_tuples).
Proof.
  destruct (presence_ok variables file_map files) eqn:Hp.
  2:{ rewrite query_raise_supplied by done. simpl. intros [= <-]. by left. }
  destruct (stateless_check_consistent file_map files) as [[[]|e] H2].
  2:{ rewrite (query_raise_consistent _ _ _ _ _ _ e st Hp (H2 st)). simpl.
      intros [= ->]. destruct (check_consistent_raises _ _ _ _ _ (H2 st)).
      right; left. done. }
  pose proof (check_consistent_inv _ _ _ _ (H2 st)) as Hk.
  destruct (stateless_check_complete files) as [[[]|e] H3].
  2:{ rewrite (query_raise_complete _ _ _ _ _ _ e st Hp (H2 st) (H3 st)). simpl.
      intros [= ->]. destruct (check_complete_raises _ _ _ _ (H3 st)).
      right; right. done. }
  intros H. exfalso. revert H. unfold query.
  rewrite (bind_stateless_ok _ _ tt st st (stateless_check_supplied _ _ _));
    [| by rewrite check_supplied_run, Hp].
  rewrite (bind_stateless_ok _ _ tt st st (stateless_check_consistent _ _) (H2 st)).
  rewrite (bind_stateless_ok _ _ tt st st (stateless_check_complete _) (H3 st)).
  apply no_value_error_bind.
  - intros st0 msg0. destruct (negb (truthy files)); [done |].
    unfold bind. by destruct files.
  - intros [|]; [apply no_value_error_query_without_upload
                | apply no_value_error_query_with_upload].
Qed.

(** The four messages are different texts. *)
Lemma messages_differ :
  msg_same_keys <> msg_file_map_requires /\ msg_same_keys <> msg_files_requires /\
  msg_same_keys <> msg_3_tuples /\ msg_3_tuples <> msg_file_map_requires /\
  msg_3_tuples <> msg_files_requires.
Proof. repeat split; intros H; vm_compute in H; discriminate. Qed.

(** * The claims of the specification *)

(** C1.  A call of [query] whose file map is there (true as a condition) while
    the variables or the files are not, and a call whose files are there while
    the variables or the file map are not, raises the [ValueError] called
    InvalidArguments and leaves the log of calls as it was: no request is
    sent.  The message is the one of the argument that asks for company, the
    file map first, and it names each companion that is missing. *)
Theorem query_requires_companions json_dumps self q variables file_map files st :
  (truthy file_map = true /\ (truthy variables = false \/ truthy files = false)) \/
  (truthy files = true /\ (truthy variables = false \/ truthy file_map = false)) ->
  exists msg,
    query json_dumps self q variables file_map files st = (Raise (ValueError msg), st) /\
    InvalidArguments (ValueError msg) /\
    msg = (if truthy file_map then msg_file_map_requires else msg_files_requires) /\
    (truthy variables = false -> contains "variables" msg = true) /\
    (truthy files = false -> contains "files" msg = true) /\
    (truthy file_map = false -> contains "file_map" msg = true).
Proof.
  intros H.
  assert (Hp : presence_ok variables file_map files = false).
  { unfold presence_ok.
    destruct H as [[-> [-> | ->]] | [-> [-> | ->]]]; simpl;
      rewrite ?andb_false_r; try done;
      destruct (truthy file_map), (truthy variables), (truthy files); done. }
  eexists. split; [by apply query_raise_supplied |].
  unfold InvalidArguments.
  destruct (truthy file_map); (split; [auto |]); (split; [done |]);
    repeat split; intros _; reflexivity.
Qed.

(** C1 on the first call of [test_map_requires_variables_and_files]. *)
Lemma query_requires_companions_witness :
  exists msg,
    query json_encode (__init__ test_session TEST_URI) "some query"
      PNone (PDict [("a", PStr "b")]) PNone []
    = (Raise (ValueError msg), []) /\
    InvalidArguments (ValueError msg) /\
    msg = msg_file_map_requires /\
    (truthy PNone = false -> contains "variables" msg = true) /\
    (truthy PNone = false -> contains "files" msg = true) /\
    (truthy (PDict [("a", PStr "b")]) = false -> contains "file_map" msg = true).
Proof.
  apply (query_requires_companions json_encode (__init__ test_session TEST_URI)
           "some query" PNone (PDict [("a", PStr "b")]) PNone []).
  left. split; [reflexivity | left; reflexivity].
Defined.

(** C2.  With variables, a file map and files all there, [query] raises the
    [ValueError] called InconsistentFileMap, whose message contains
    [same keys], when the set of keys of the file map is not the set of keys of
    the files, and sends nothing; when the two sets are the same, no exception
    of [query] is that error. *)
Theorem query_same_keys json_dumps self q variables fm fs st :
  truthy variables = true -> fm <> [] -> fs <> [] ->
  (set_of (map fst fm) <> set_of (map fst fs) ->
   query json_dumps self q variables (PDict fm) (PDict fs) st
   = (Raise (ValueError msg_same_keys), st) /\
   InconsistentFileMap (ValueError msg_same_keys) /\
   contains "same keys" msg_same_keys = true) /\
  (set_of (map fst fm) = set_of (map fst fs) ->
   forall e, fst (query json_dumps self q variables (PDict fm) (PDict fs) st) = Raise e ->
             ~ InconsistentFileMap e).
Proof.
  intros Hv Hfm Hfs.
  assert (Hp : presence_ok variables (PDict fm) (PDict fs) = true).
  { unfold presence_ok. rewrite Hv. by destruct fm, fs. }
  assert (Ht : truthy (PDict fm) && truthy (PDict fs) = true) by by destruct fm, fs.
  split.
  - intros Hne. split; [| done].
    apply query_raise_consistent; [done |].
    rewrite check_consistent_run. unfold keys_ok. rewrite Ht. simpl.
    by case_bool_decide.
  - intros Heq e He ->.
    apply query_value_error in He as [[Hp' _] | [(_ & Hk & _) | (_ & _ & _ & Hm)]].
    + congruence.
    + unfold keys_ok in Hk. rewrite Ht in Hk. simpl in Hk. by case_bool_decide.
    + by apply messages_differ.
Qed.

(** C2 on the dictionaries of [test_file_map_keys_are_file_keys]. *)
Lemma query_same_keys_witness :
  let variables := PDict [("proposal", PNone); ("block", PNone); ("target", PNone)] in
  let files := [("0", PTuple [PStr "a"; PStr "b"; PStr "text/plain"]);
                ("1", PTuple [PStr "c"; PStr "d"; PStr "text/plain"])] in
  let file_map := [("1", PList [PStr "variables.proposal"]);
                   ("2", PList [PStr "variables.block"])] in
  query json_encode (__init__ test_session TEST_URI) "query { block { id } }"
    variables (PDict file_map) (PDict files) []
  = (Raise (ValueError msg_same_keys), []) /\
  InconsistentFileMap (ValueError msg_same_keys) /\
  contains "same keys" msg_same_keys = true.
Proof.
  intros variables files file_map.
  apply (query_same_keys json_encode (__init__ test_session TEST_URI)
           "query { block { id } }" variables file_map files []);
    [reflexivity | discriminate | discriminate |].
  intros H. apply (f_equal (fun s : gset string => bool_decide ("0" ∈ s))) in H.
  vm_compute in H. discriminate.
Defined.

(** C3, as the code has it.  With variables, a file map and files all there
    and the same keys in both, and every value of the files being something
    that has a length (a tuple, a list, a string, a dictionary): when some
    value has a length other than 3, [query] raises the [ValueError] called
    MalformedFileEntry, whose message contains [3-tuple], and sends nothing;
    when every value has length 3, [query] raises no [ValueError] at all. *)
Theorem query_file_entries json_dumps self q variables fm fs st :
  truthy variables = true -> fm <> [] -> fs <> [] ->
  set_of (map fst fm) = set_of (map fst fs) ->
  forallb sized (map snd fs) = true ->
  (existsb (fun v => negb (three_components v)) (map snd fs) = true ->
   query json_dumps self q variables (PDict fm) (PDict fs) st
   = (Raise (ValueError msg_3_tuples), st) /\
   MalformedFileEntry (ValueError msg_3_tuples) /\
   contains "3-tuple" msg_3_tuples = true) /\
  (existsb (fun v => negb (three_components v)) (map snd fs) = false ->
   forall msg, fst (query json_dumps self q variables (PDict fm) (PDict fs) st)
               <> Raise (ValueError msg)).
Proof.
  intros Hv Hfm Hfs Hk Hsz.
  assert (Hp : presence_ok variables (PDict fm) (PDict fs) = true).
  { unfold presence_ok. rewrite Hv. by destruct fm, fs. }
  assert (Hk' : keys_ok (PDict fm) (PDict fs) = true).
  { unfold keys_ok. apply implb_true_iff. intros _. by apply bool_decide_eq_true_2. }
  assert (Hex : existsb (fun v => negb (three_components v)) (map snd fs)
                = negb (forallb three_components (map snd fs))).
  { clear. induction (map snd fs) as [|v vs IH]; simpl; [done |].
    rewrite IH. by destruct (three_components v). }
  rewrite Hex. split.
  - intros Hbad%negb_true_iff. split; [| done].
    apply query_raise_complete; [done | by apply check_consistent_keys_ok |].
    by apply check_complete_bad.
  - intros Hgood%negb_false_iff msg He.
    apply query_value_error in He as [[Hp' _] | [(_ & Hk'' & _) | (_ & _ & Hs & _)]];
      try congruence.
    unfold shape_ok in Hs. rewrite Hgood in Hs. by destruct fs.
Qed.

(** C3 on the incomplete entry of [test_incomplete_file_details_are_handled]. *)
Lemma query_file_entries_witness :
  query json_encode (__init__ test_session TEST_URI) "query { block { id } }"
    (PDict [("proposal", PNone)])
    (PDict [("0", PList [PStr "variables.proposal"])])
    (PDict [("0", PTuple [PStr "a"; PStr "b"])]) []
  = (Raise (ValueError msg_3_tuples), []) /\
  MalformedFileEntry (ValueError msg_3_tuples) /\
  contains "3-tuple" msg_3_tuples = true.
Proof.
  apply (query_file_entries json_encode (__init__ test_session TEST_URI)
           "query { block { id } }" (PDict [("proposal", PNone)])
           [("0", PList [PStr "variables.proposal"])]
           [("0", PTuple [PStr "a"; PStr "b"])] []);
    [reflexivity | discriminate | discriminate | | reflexivity | reflexivity].
  apply (bool_decide_unpack _). vm_compute. exact I.
Defined.

(** C3 as stated fails on a file object given in place of its tuple: the
    entry has no three components, the other checks pass, and what [query]
    raises is the [TypeError] of [len], not a [ValueError]. *)
Lemma query_file_object_entry :
  let variables := PDict [("proposal", PNone)] in
  let file_map := PDict [("0", PList [PStr "variables.proposal"])] in
  let files := PDict [("0", PObj "_io.TextIOWrapper" 1)] in
  let run := query json_encode (__init__ test_session TEST_URI)
               "query { block { id } }" variables file_map files [] in
  presence_ok variables file_map files = true /\
  keys_ok file_map files = true /\
  three_components (PObj "_io.TextIOWrapper" 1) = false /\
  run = (Raise (TypeError "object of type '_io.TextIOWrapper' has no len()"), []) /\
  (forall msg, fst run <> Raise (ValueError msg)).
Proof.
  repeat split; try (vm_compute; reflexivity).
  intros msg H. vm_compute in H. discriminate.
Qed.

(** The upload, once the checks are passed. *)
Lemma query_with_upload_run json_dumps self q variables file_map fs ops mp st :
  NoDup (map fst fs) ->
  json_dumps (PDict [("query", PStr q); ("variables", variables)]) = Returns ops ->
  json_dumps file_map = Returns mp ->
  session_attr (_session self) "post" = Some Method ->
  query_with_upload json_dumps self q variables file_map (PDict fs) st =
  perform (_session self)
    (Call "post" [PStr (_uri self)]
       [("data", PDict [("operations", PStr ops); ("map", PStr mp)]);
        ("files", PDict fs)]) st.
Proof.
  intros Hnd Hops Hmp Hpost. unfold query_with_upload.
  rewrite Hops, Hmp. unfold bind at 1 2 3. cbn [from_library ret keys].
  unfold bind at 1. rewrite (dict_comprehension_files fs st Hnd).
  unfold bind, getattr. by rewrite Hpost.
Qed.

(** C4.  When the files are absent or an empty mapping (false as a condition)
    and the validation passes, [query] makes one call on the [requests]
    session: [post] with the URL of the session and the payload as [json].
    The payload maps [query] to the query string; it maps [variables] to the
    variables when these are true as a condition, and has no such key
    otherwise. *)
Theorem query_json_post json_dumps self q variables file_map files st :
  truthy files = false ->
  presence_ok variables file_map files = true ->
  session_attr (_session self) "post" = Some Method ->
  let payload := if truthy variables
                 then [("query", PStr q); ("variables", variables)]
                 else [("query", PStr q)] in
  let request := Call "post" [PStr (_uri self)] [("json", PDict payload)] in
  query json_dumps self q variables file_map files st
  = perform (_session self) request st /\
  snd (query json_dumps self q variables file_map files st) = (st ++ [request])%list /\
  dict_get payload "query" = Some (PStr q) /\
  dict_get payload "variables" = (if truthy variables then Some variables else None).
Proof.
  intros Hf Hp Hpost payload request.
  assert (Hrun : query json_dumps self q variables file_map files st
                 = perform (_session self) request st).
  { rewrite query_checked_no_files by done.
    unfold query_without_upload, bind, getattr. rewrite Hpost. simpl.
    subst request payload. by destruct (truthy variables). }
  split; [exact Hrun |]. split; [by rewrite Hrun |].
  subst payload. by destruct (truthy variables).
Qed.

(** C4 on the call of [test_query_with_variables_works]. *)
Lemma query_json_post_witness :
  let variables := PDict [("name", PStr "John Doe")] in
  let payload := [("query", PStr "query hello"); ("variables", variables)] in
  let request := Call "post" [PStr TEST_URI] [("json", PDict payload)] in
  query json_encode (__init__ test_session TEST_URI) "query hello" variables PNone PNone []
  = perform test_session request [] /\
  snd (query json_encode (__init__ test_session TEST_URI) "query hello"
         variables PNone PNone []) = [request] /\
  dict_get payload "query" = Some (PStr "query hello") /\
  dict_get payload "variables" = Some variables.
Proof.
  intros variables payload request.
  apply (query_json_post json_encode (__init__ test_session TEST_URI) "query hello"
           variables PNone PNone []); reflexivity.
Defined.

(** C5.  When the files are a non-empty dictionary and the validation
    passes, [query] makes one call on the [requests] session: [post] with the
    URL of the session, as [data] the two text fields [operations] and [map],
    and as [files] the entries of the files, key by key.  [operations] holds
    what [json.dumps] makes of the query string and the variables, whatever
    the variables hold; [map] holds what it makes of the file map. *)
Theorem query_multipart_post json_dumps self q variables fm fs ops mp st :
  fs <> [] -> NoDup (map fst fs) ->
  presence_ok variables (PDict fm) (PDict fs) = true ->
  keys_ok (PDict fm) (PDict fs) = true ->
  shape_ok (PDict fs) = true ->
  json_dumps (PDict [("query", PStr q); ("variables", variables)]) = Returns ops ->
  json_dumps (PDict fm) = Returns mp ->
  session_attr (_session self) "post" = Some Method ->
  let data := PDict [("operations", PStr ops); ("map", PStr mp)] in
  let request := Call "post" [PStr (_uri self)] [("data", data); ("files", PDict fs)] in
  query json_dumps self q variables (PDict fm) (PDict fs) st
  = perform (_session self) request st /\
  snd (query json_dumps self q variables (PDict fm) (PDict fs) st)
  = (st ++ [request])%list.
Proof.
  intros Hfs Hnd Hp Hk Hs Hops Hmp Hpost data request.
  assert (Hrun : query json_dumps self q variables (PDict fm) (PDict fs) st
                 = perform (_session self) request st).
  { rewrite query_checked_files;
      [| done | by apply check_consistent_keys_ok
       | by apply check_complete_shape_ok | done].
    by apply query_with_upload_run. }
  split; [exact Hrun | by rewrite Hrun].
Qed.

(** C5 on the call of [test_query_with_files_works], with a list of paths in
    the file map and a null placeholder for the file among the variables. *)
Lemma query_multipart_post_witness :
  let variables := PDict [("name", PStr "John Doe"); ("message", PNone)] in
  let file_map := [("0", PList [PStr "variables.message"])] in
  let files := [("0", PTuple [PStr "message.txt"; PStr "Welcome to the event!";
                              PStr "text/plain"])] in
  let data := PDict
    [("operations",
      PStr ("{" ++ dquote ++ "query" ++ dquote ++ ": " ++ dquote ++ "query hello"
            ++ dquote ++ ", " ++ dquote ++ "variables" ++ dquote ++ ": {"
            ++ dquote ++ "name" ++ dquote ++ ": " ++ dquote ++ "John Doe" ++ dquote
            ++ ", " ++ dquote ++ "message" ++ dquote ++ ": null}}"));
     ("map",
      PStr ("{" ++ dquote ++ "0" ++ dquote ++ ": [" ++ dquote ++ "variables.message"
            ++ dquote ++ "]}"))] in
  let request := Call "post" [PStr TEST_URI] [("data", data); ("files", PDict files)] in
  query json_encode (__init__ test_session TEST_URI) "query hello"
    variables (PDict file_map) (PDict files) []
  = perform test_session request [] /\
  snd (query json_encode (__init__ test_session TEST_URI) "query hello"
         variables (PDict file_map) (PDict files) []) = [request].
Proof.
  intros variables file_map files data request.
  apply (query_multipart_post json_encode (__init__ test_session TEST_URI)
           "query hello" variables file_map files _ _ []);
    try reflexivity; try discriminate.
  apply NoDup_cons. split; [apply not_elem_of_nil | apply NoDup_nil_2].
Defined.

(** C6.  Whenever [query] ends in one of its validation errors, the log of
    calls on the [requests] session is as it was before: nothing was posted.
    And whenever the log did change, the three checks had all passed, and the
    change is one call. *)
Theorem query_validates_before_sending json_dumps self q variables file_map files st :
  let run := query json_dumps self q variables file_map files st in
  (forall e, fst run = Raise e ->
             InvalidArguments e \/ InconsistentFileMap e \/ MalformedFileEntry e ->
             snd run = st) /\
  (snd run <> st ->
   presence_ok variables file_map files = true /\
   keys_ok file_map files = true /\
   shape_ok files = true /\
   exists ev, snd run = (st ++ [ev])%list).
Proof.
  intros run. subst run.
  destruct (query_outcomes json_dumps self q variables file_map files st)
    as [[e' He'] | (Hp & Hk & Hs & c & ev & Hrun)].
  - rewrite He'. simpl. split; [done |]. intros H. by destruct H.
  - rewrite Hrun, perform_run. simpl. split.
    + intros e He Hval. exfalso.
      destruct (session_answer c st ev); [discriminate |].
      injection He as <-.
      unfold InvalidArguments, InconsistentFileMap, MalformedFileEntry in Hval.
      destruct Hval as [[?|?] | [?|?]]; discriminate.
    + intros _. repeat (split; [assumption |]). by exists ev.
Qed.

(** C6 on the malformed entry of [test_incomplete_file_details_are_handled]. *)
Lemma query_validates_before_sending_witness :
  snd (query json_encode (__init__ test_session TEST_URI) "query { block { id } }"
         (PDict [("proposal", PNone)])
         (PDict [("0", PList [PStr "variables.proposal"])])
         (PDict [("0", PTuple [PStr "a"; PStr "b"])]) []) = [].
Proof.
  apply (proj1 (query_validates_before_sending json_encode
                  (__init__ test_session TEST_URI) "query { block { id } }"
                  (PDict [("proposal", PNone)])
                  (PDict [("0", PList [PStr "variables.proposal"])])
                  (PDict [("0", PTuple [PStr "a"; PStr "b"])]) [])
               (ValueError msg_3_tuples)).
  - vm_compute. reflexivity.
  - right. right. reflexivity.
Defined.

(** ** The verdict of the validation *)

Lemma validation_same_keys variables fm fm' files st :
  map fst fm = map fst fm' ->
  validation variables (PDict fm) files st = validation variables (PDict fm') files st.
Proof.
  intros Hk.
  assert (Ht : truthy (PDict fm) = truthy (PDict fm')).
  { simpl. by rewrite <- (length_map fst fm), Hk, length_map. }
  unfold validation, bind.
  rewrite !check_supplied_run. unfold presence_ok. rewrite Ht.
  destruct (_ && _); [| done].
  unfold check_consistent. rewrite Ht.
  destruct (truthy (PDict fm') && truthy files); [| done].
  unfold when, bind, keys. by rewrite Hk.
Qed.

(** [query] raises a [ValueError] exactly when the validation does. *)
Lemma query_validation_verdict json_dumps self q variables file_map files st msg :
  fst (query json_dumps self q variables file_map files st) = Raise (ValueError msg) <->
  fst (validation variables file_map files st) = Raise (ValueError msg).
Proof.
  unfold query, validation.
  destruct (stateless_check_supplied variables file_map files) as [[[]|e] H1].
  2:{ rewrite !(bind_stateless_raise _ _ e st st) by (by eexists || done).
      simpl. split; intros [= ->]; reflexivity. }
  rewrite !(bind_stateless_ok _ _ tt st st (stateless_check_supplied _ _ _) (H1 st)).
  destruct (stateless_check_consistent file_map files) as [[[]|e] H2].
  2:{ rewrite !(bind_stateless_raise _ _ e st st) by (by eexists || done).
      simpl. split; intros [= ->]; reflexivity. }
  rewrite !(bind_stateless_ok _ _ tt st st (stateless_check_consistent _ _) (H2 st)).
  destruct (stateless_check_complete files) as [[[]|e] H3].
  2:{ rewrite (bind_stateless_raise _ _ e st st) by (by eexists || done).
      rewrite H3. simpl. split; intros [= ->]; reflexivity. }
  rewrite (bind_stateless_ok _ _ tt st st (stateless_check_complete _) (H3 st)).
  rewrite H3. simpl. split; [| discriminate].
  intros H. exfalso. revert H. apply no_value_error_bind.
  - intros st0 msg0. destruct (negb (truthy files)); [done |].
    unfold bind. by destruct files.
  - intros [|]; [apply no_value_error_query_without_upload
                | apply no_value_error_query_with_upload].
Qed.

Lemma len_three v st : len v st = (Ok 3, st) -> three_components v = true.
Proof. destruct v; simpl; try discriminate; unfold ret; by intros [= ->]. Qed.

(** C7.  For an HTTP verb that the [requests] session has, [__getattr__] gives
    the function [f], and calling [f] with any positional and keyword
    arguments is calling that attribute of the [requests] session with the
    URL of the session in front of the positional arguments: for a method,
    that very call is made on the session. *)
Theorem getattr_http_verb self item m st :
  item ∈ _HTTP_VERBS ->
  session_attr (_session self) item = Some m ->
  __getattr__ self item st = (Ok (Closure_f self item), st) /\
  (forall args kwargs st',
     call (Closure_f self item) args kwargs st' =
     call_session_obj
       match m with
       | Data v => Plain v
       | Method => BoundMethod (_session self) item
       end
       (PStr (_uri self) :: args) kwargs st') /\
  (m = Method ->
   forall args kwargs st',
     call (Closure_f self item) args kwargs st' =
     perform (_session self) (Call item (PStr (_uri self) :: args) kwargs) st').
Proof.
  intros Hverb Hattr.
  assert (Hcall : forall args kwargs st',
     call (Closure_f self item) args kwargs st' =
     call_session_obj
       match m with
       | Data v => Plain v
       | Method => BoundMethod (_session self) item
       end
       (PStr (_uri self) :: args) kwargs st').
  { intros args kwargs st'. unfold call, f, bind, getattr. rewrite Hattr.
    by destruct m. }
  split; [| split; [exact Hcall |]].
  - unfold __getattr__, hasattr, bind, when. rewrite Hattr. simpl.
    by rewrite bool_decide_eq_true_2.
  - intros -> args kwargs st'. by rewrite Hcall.
Qed.

(** C7 on [session.get()] of [test_call_http_verbs_with_url], with a keyword
    argument added. *)
Lemma getattr_http_verb_witness :
  let session := __init__ test_session TEST_URI in
  __getattr__ session "get" [] = (Ok (Closure_f session "get"), []) /\
  call (Closure_f session "get") [] [("timeout", PInt 5)] []
  = (Ok (PObj "Response" 200), [Call "get" [PStr TEST_URI] [("timeout", PInt 5)]]).
Proof.
  intros session.
  destruct (getattr_http_verb session "get" Method []) as (H1 & _ & H3).
  - apply (bool_decide_unpack _). vm_compute. exact I.
  - reflexivity.
  - split; [exact H1 |]. rewrite (H3 eq_refl). reflexivity.
Defined.

(** C8.  For a name the [requests] session lacks, [__getattr__] raises an
    [AttributeError] whose message names the attribute.  For a name it has
    that is no HTTP verb, [__getattr__] gives what [getattr] on the [requests]
    session gives, as it is. *)
Theorem getattr_delegates self item st :
  (session_attr (_session self) item = None ->
   let msg := "The Session class has no attribute '" ++ item ++ "'" in
   __getattr__ self item st = (Raise (AttributeError msg), st) /\
   contains item msg = true) /\
  (forall m, session_attr (_session self) item = Some m ->
             item ∉ _HTTP_VERBS ->
             exists o, getattr (_session self) item st = (Ok o, st) /\
                       __getattr__ self item st = (Ok (Delegated o), st)).
Proof.
  split.
  - intros Hattr msg. split.
    + unfold __getattr__, hasattr, bind, when. by rewrite Hattr.
    + apply contains_infix.
  - intros m Hattr Hverb.
    exists (match m with Data v => Plain v | Method => BoundMethod (_session self) item end).
    unfold __getattr__, hasattr, bind, when, getattr. rewrite Hattr. simpl.
    rewrite bool_decide_eq_false_2 by done. by destruct m.
Qed.

(** C8 on a name [requests.Session] does not have. *)
Lemma getattr_delegates_witness :
  let msg := "The Session class has no attribute 'graphql'" in
  __getattr__ (__init__ test_session TEST_URI) "graphql" []
  = (Raise (AttributeError msg), []) /\
  contains "graphql" msg = true.
Proof.
  apply (proj1 (getattr_delegates (__init__ test_session TEST_URI) "graphql" [])).
  reflexivity.
Defined.

(** C9.  The checks of [query] ask whether an argument is true as a
    condition, not whether it was given.  With the file map and the files
    each [None] or an empty dictionary, whatever the variables, [query] is
    the query without upload and raises no [ValueError].  With files that are
    a non-empty dictionary, variables that are an empty dictionary or a file
    map that is one make [query] raise InvalidArguments, and nothing is
    sent. *)
Theorem query_presence_is_truthiness json_dumps self q variables file_map files st :
  ((file_map = PNone \/ file_map = PDict []) ->
   (files = PNone \/ files = PDict []) ->
   query json_dumps self q variables file_map files st
   = query_without_upload self q variables st /\
   forall msg, fst (query json_dumps self q variables file_map files st)
               <> Raise (ValueError msg)) /\
  (forall fs, files = PDict fs -> fs <> [] ->
              variables = PDict [] \/ file_map = PDict [] ->
              exists e, query json_dumps self q variables file_map files st
                        = (Raise e, st) /\ InvalidArguments e).
Proof.
  split.
  - intros Hfm Hfs.
    assert (Hrun : query json_dumps self q variables file_map files st
                   = query_without_upload self q variables st).
    { apply query_checked_no_files.
      - unfold presence_ok.
        destruct Hfm as [-> | ->]; destruct Hfs as [-> | ->]; reflexivity.
      - destruct Hfs as [-> | ->]; reflexivity. }
    split; [exact Hrun |]. intros msg. rewrite Hrun.
    apply no_value_error_query_without_upload.
  - intros fs -> Hfs Hempty. eexists. split.
    + apply query_raise_supplied. unfold presence_ok.
      destruct fs; [done |]. destruct Hempty as [-> | ->]; simpl.
      * by destruct (truthy file_map).
      * by rewrite andb_false_r.
    + unfold InvalidArguments. destruct (truthy file_map); auto.
Qed.

(** C9 on files with an entry, a file map for it, and empty variables. *)
Lemma query_presence_is_truthiness_witness :
  exists e,
    query json_encode (__init__ test_session TEST_URI) "query { greet }"
      (PDict []) (PDict [("0", PList [PStr "variables.message"])])
      (PDict [("0", PTuple [PStr "message.txt"; PStr "Welcome"; PStr "text/plain"])]) []
    = (Raise e, []) /\ InvalidArguments e.
Proof.
  apply (proj2 (query_presence_is_truthiness json_encode
                  (__init__ test_session TEST_URI) "query { greet }"
                  (PDict []) (PDict [("0", PList [PStr "variables.message"])])
                  (PDict [("0", PTuple [PStr "message.txt"; PStr "Welcome";
                                         PStr "text/plain"])]) [])
               [("0", PTuple [PStr "message.txt"; PStr "Welcome"; PStr "text/plain"])]).
  - reflexivity.
  - discriminate.
  - left. reflexivity.
Defined.

(** C10.  [query] looks at the keys of the file map and never at its values:
    two file maps with the same keys get the same verdict of the validation,
    whatever the files; and when the checks pass, the [map] field is what
    [json.dumps] makes of the file map as it was given.  The check of the
    file entries asks for length 3 and for nothing else: with every value of
    the files of length 3, be it a tuple, a list, a string or a dictionary,
    the upload is posted with the files as they are. *)
Theorem query_checks_keys_and_lengths json_dumps self q variables fm fs st :
  (forall fm', map fst fm = map fst fm' ->
     forall files msg,
       fst (query json_dumps self q variables (PDict fm) files st)
       = Raise (ValueError msg) <->
       fst (query json_dumps self q variables (PDict fm') files st)
       = Raise (ValueError msg)) /\
  (forall ops mp,
     truthy variables = true -> fm <> [] -> fs <> [] -> NoDup (map fst fs) ->
     set_of (map fst fm) = set_of (map fst fs) ->
     Forall (fun v => len v st = (Ok 3, st)) (map snd fs) ->
     json_dumps (PDict [("query", PStr q); ("variables", variables)]) = Returns ops ->
     json_dumps (PDict fm) = Returns mp ->
     session_attr (_session self) "post" = Some Method ->
     query json_dumps self q variables (PDict fm) (PDict fs) st
     = perform (_session self)
         (Call "post" [PStr (_uri self)]
            [("data", PDict [("operations", PStr ops); ("map", PStr mp)]);
             ("files", PDict fs)]) st).
Proof.
  split.
  - intros fm' Hk files msg.
    by rewrite !query_validation_verdict, (validation_same_keys _ fm fm').
  - intros ops mp Hv Hfm Hfs Hnd Hk Hlen Hops Hmp Hpost.
    rewrite query_checked_files; [by apply query_with_upload_run | | | | done].
    + unfold presence_ok. rewrite Hv. by destruct fm, fs.
    + apply check_consistent_keys_ok. unfold keys_ok.
      apply implb_true_iff. intros _. by apply bool_decide_eq_true_2.
    + apply check_complete_ok. apply forallb_forall. intros v Hin.
      rewrite Forall_forall in Hlen. apply (len_three v st), Hlen.
      by apply list_elem_of_In.
Qed.

(** C10 on a plain string as the value of the file map, as in
    [test_query_with_files_works], and a string of three characters as the
    file entry. *)
Lemma query_checks_keys_and_lengths_witness :
  let variables := PDict [("name", PStr "John Doe")] in
  let file_map := PDict [("0", PStr "[variables.message]")] in
  let files := PDict [("0", PStr "abc")] in
  let data := PDict
    [("operations",
      PStr ("{" ++ dquote ++ "query" ++ dquote ++ ": " ++ dquote ++ "query hello"
            ++ dquote ++ ", " ++ dquote ++ "variables" ++ dquote ++ ": {"
            ++ dquote ++ "name" ++ dquote ++ ": " ++ dquote ++ "John Doe" ++ dquote
            ++ "}}"));
     ("map",
      PStr ("{" ++ dquote ++ "0" ++ dquote ++ ": " ++ dquote ++ "[variables.message]"
            ++ dquote ++ "}"))] in
  query json_encode (__init__ test_session TEST_URI) "query hello"
    variables file_map files []
  = perform test_session
      (Call "post" [PStr TEST_URI] [("data", data); ("files", files)]) [].
Proof.
  intros variables file_map files data.
  apply (proj2 (query_checks_keys_and_lengths json_encode
                  (__init__ test_session TEST_URI) "query hello" variables
                  [("0", PStr "[variables.message]")] [("0", PStr "abc")] []));
    try reflexivity; try discriminate.
  - apply NoDup_cons. split; [apply not_elem_of_nil | apply NoDup_nil_2].
  - apply Forall_cons. split; [reflexivity | apply Forall_nil_2].
Defined.

(** * Further properties of the code *)

(** ** Where [query] goes after its checks *)

Lemma query_dispatch json_dumps self q variables file_map files st :
  (exists e, query json_dumps self q variables file_map files st = (Raise e, st)) \/
  (truthy files = false /\
   presence_ok variables file_map files = true /\
   query json_dumps self q variables file_map files st
   = query_without_upload self q variables st) \/
  (exists fs, files = PDict fs /\ fs <> [] /\
   presence_ok variables file_map files = true /\
   keys_ok file_map files = true /\
   shape_ok files = true /\
   query json_dumps self q variables file_map files st
   = query_with_upload json_dumps self q variables file_map files st).
Proof.
  destruct (presence_ok variables file_map files) eqn:Hp.
  2:{ left. eexists. by apply query_raise_supplied. }
  destruct (truthy files) eqn:Hf.
  2:{ right; left. split; [done |]. split; [done |].
      by apply query_checked_no_files. }
  destruct (stateless_check_consistent file_map files) as [[[]|e] H2].
  2:{ left. exists e. by apply query_raise_consistent. }
  destruct (stateless_check_complete files) as [[[]|e] H3].
  2:{ left. exists e. by apply query_raise_complete. }
  pose proof (check_consistent_inv _ _ _ _ (H2 st)) as Hk.
  pose proof (check_complete_inv _ _ _ (H3 st)) as Hs.
  right; right.
  assert (exists fs, files = PDict fs /\ fs <> []) as (fs & -> & Hne).
  { unfold shape_ok in Hs. rewrite Hf in Hs. simpl in Hs.
    destruct files; try discriminate. exists d. split; [done |]. by destruct d. }
  exists fs. do 5 (split; [done |]).
  apply query_checked_files; [done | apply H2 | apply H3 | done].
Qed.

Lemma query_without_upload_cases self q variables st :
  (exists e, query_without_upload self q variables st = (Raise e, st)) \/
  query_without_upload self q variables st
  = perform (_session self)
      (Call "post" [PStr (_uri self)]
         [("json", PDict (if truthy variables
                          then [("query", PStr q); ("variables", variables)]
                          else [("query", PStr q)]))]) st.
Proof.
  unfold query_without_upload, bind, getattr.
  destruct (session_attr (_session self) "post") as [[v|]|]; simpl.
  - left. eexists. reflexivity.
  - right. by destruct (truthy variables).
  - left. eexists. reflexivity.
Qed.

Lemma query_with_upload_cases json_dumps self q variables file_map files st :
  (exists e, query_with_upload json_dumps self q variables file_map files st
             = (Raise e, st)) \/
  (exists data file_data,
     query_with_upload json_dumps self q variables file_map files st
     = perform (_session self)
         (Call "post" [PStr (_uri self)] [("data", data); ("files", PDict file_data)])
         st).
Proof.
  unfold query_with_upload.
  destruct (json_dumps _) as [ops|e]; [| left; by eexists].
  rewrite (bind_stateless_ok (from_library (Returns ops)) _ ops st st
             (stateless_from_library _) eq_refl).
  destruct (json_dumps file_map) as [mp|e]; [| left; by eexists].
  rewrite (bind_stateless_ok (from_library (Returns mp)) _ mp st st
             (stateless_from_library _) eq_refl).
  destruct (stateless_keys files) as [[ks|e] Hks].
  2:{ left. exists e. by apply (bind_stateless_raise _ _ e st st (stateless_keys _)). }
  rewrite (bind_stateless_ok _ _ ks st st (stateless_keys _) (Hks st)).
  assert (Hst : stateless (dict_comprehension ks (fun key => getitem files key) []))
    by (apply stateless_dict_comprehension; intros k; apply stateless_getitem).
  destruct Hst as [[fd|e] Hfd].
  2:{ left. exists e. apply (bind_stateless_raise _ _ e st st); [by eexists | done]. }
  rewrite (bind_stateless_ok _ _ fd st st); [| by eexists | done].
  unfold bind, getattr.
  destruct (session_attr (_session self) "post") as [[v|]|]; simpl.
  - left. eexists. reflexivity.
  - right. do 2 eexists. reflexivity.
  - left. eexists. reflexivity.
Qed.

(** ** What [query] sends and what it hands back *)

(** X1.  Whatever the arguments, [query] makes no call on the [requests]
    session or exactly one, and that one is [post] with the URL of the
    session as its only positional argument and either the keyword [json] or
    the keywords [data] and [files]. *)
Theorem query_only_posts_to_uri json_dumps self q variables file_map files st :
  snd (query json_dumps self q variables file_map files st) = st \/
  exists kwargs,
    snd (query json_dumps self q variables file_map files st)
    = (st ++ [Call "post" [PStr (_uri self)] kwargs])%list /\
    (map fst kwargs = ["json"] \/ map fst kwargs = ["data"; "files"]).
Proof.
  destruct (query_dispatch json_dumps self q variables file_map files st)
    as [[e ->] | [(_ & _ & ->) | (fs & _ & _ & _ & _ & _ & ->)]].
  - by left.
  - destruct (query_without_upload_cases self q variables st) as [[e ->] | ->].
    + by left.
    + right. eexists. split; [reflexivity | by left].
  - destruct (query_with_upload_cases json_dumps self q variables file_map files st)
      as [[e ->] | (data & fd & ->)].
    + by left.
    + right. eexists. split; [reflexivity | by right].
Qed.

(** X2.  When [query] has made its call, it hands back what the [requests]
    session answered: the response as it is, and an exception of the session
    as the exception of [query]. *)
Theorem query_hands_back_answer json_dumps self q variables file_map files st ev :
  snd (query json_dumps self q variables file_map files st) = (st ++ [ev])%list ->
  fst (query json_dumps self q variables file_map files st)
  = match session_answer (_session self) st ev with
    | Returns v => Ok v
    | Fails e => Raise (LibraryError e)
    end.
Proof.
  assert (Hperf : forall ev0,
    query json_dumps self q variables file_map files st
    = perform (_session self) ev0 st ->
    snd (query json_dumps self q variables file_map files st) = (st ++ [ev])%list ->
    fst (query json_dumps self q variables file_map files st)
    = match session_answer (_session self) st ev with
      | Returns v => Ok v
      | Fails e => Raise (LibraryError e)
      end).
  { intros ev0 ->. rewrite perform_run. simpl.
    intros [= ->]%app_inv_head. reflexivity. }
  destruct (query_dispatch json_dumps self q variables file_map files st)
    as [[e He] | [(_ & _ & He) | (fs & _ & _ & _ & _ & _ & He)]].
  - rewrite He. simpl. intros H. symmetry in H. by apply log_grows in H.
  - destruct (query_without_upload_cases self q variables st) as [[e Hq] | Hq];
      rewrite Hq in He.
    + rewrite He. simpl. intros H. symmetry in H. by apply log_grows in H.
    + exact (Hperf _ He).
  - destruct (query_with_upload_cases json_dumps self q variables file_map files st)
      as [[e Hq] | (data & fd & Hq)]; rewrite Hq in He.
    + rewrite He. simpl. intros H. symmetry in H. by apply log_grows in H.
    + exact (Hperf _ He).
Qed.

(** X2 on a session that cannot reach its server: the [ConnectionError] comes
    out of [query], after the call. *)
Lemma query_hands_back_answer_witness :
  fst (query json_encode (__init__ offline_session TEST_URI) "query { greet }"
         PNone PNone PNone [])
  = Raise (LibraryError (PObj "ConnectionError" 0)).
Proof.
  apply (query_hands_back_answer json_encode (__init__ offline_session TEST_URI)
           "query { greet }" PNone PNone PNone []
           (Call "post" [PStr TEST_URI]
              [("json", PDict [("query", PStr "query { greet }")])])).
  reflexivity.
Defined.

(** X3.  In a query with upload that passed the checks, an exception of
    [json.dumps] is the exception of [query], and nothing is sent: first for
    the operations, then, when these could be encoded, for the file map. *)
Theorem query_not_serializable json_dumps self q variables fm fs st e :
  fs <> [] ->
  presence_ok variables (PDict fm) (PDict fs) = true ->
  keys_ok (PDict fm) (PDict fs) = true ->
  shape_ok (PDict fs) = true ->
  json_dumps (PDict [("query", PStr q); ("variables", variables)]) = Fails e \/
  ((exists ops, json_dumps (PDict [("query", PStr q); ("variables", variables)])
                = Returns ops) /\
   json_dumps (PDict fm) = Fails e) ->
  query json_dumps self q variables (PDict fm) (PDict fs) st
  = (Raise (LibraryError e), st).
Proof.
  intros Hfs Hp Hk Hs H.
  rewrite query_checked_files;
    [| done | by apply check_consistent_keys_ok
     | by apply check_complete_shape_ok | done].
  unfold query_with_upload, bind.
  destruct H as [-> | [[ops ->] ->]]; reflexivity.
Qed.

(** X3 on variables that hold the file object where [None] belongs. *)
Lemma query_not_serializable_witness :
  query json_encode (__init__ test_session TEST_URI) "query hello"
    (PDict [("message", PObj "_io.TextIOWrapper" 1)])
    (PDict [("0", PList [PStr "variables.message"])])
    (PDict [("0", PTuple [PStr "message.txt"; PObj "_io.TextIOWrapper" 1;
                          PStr "text/plain"])]) []
  = (Raise (LibraryError not_serializable), []).
Proof.
  apply (query_not_serializable json_encode (__init__ test_session TEST_URI)
           "query hello" (PDict [("message", PObj "_io.TextIOWrapper" 1)])
           [("0", PList [PStr "variables.message"])]
           [("0", PTuple [PStr "message.txt"; PObj "_io.TextIOWrapper" 1;
                          PStr "text/plain"])] [] not_serializable);
    try reflexivity; try discriminate.
  left. reflexivity.
Defined.

(** ** Arguments of the wrong kind *)

(** X4.  With variables, file map and files all true as conditions, a file
    map that is no dictionary makes [query] raise the [AttributeError] of its
    missing [keys], and so do files that are no dictionary beside a file map
    that is one; nothing is sent. *)
Theorem query_needs_dictionaries json_dumps self q variables file_map files st :
  truthy variables = true -> truthy file_map = true -> truthy files = true ->
  ((forall fm, file_map <> PDict fm) ->
   query json_dumps self q variables file_map files st
   = (Raise (no_attribute file_map "keys"), st)) /\
  (forall fm, file_map = PDict fm -> (forall fs, files <> PDict fs) ->
              query json_dumps self q variables file_map files st
              = (Raise (no_attribute files "keys"), st)).
Proof.
  intros Hv Hfm Hfs.
  assert (Hp : presence_ok variables file_map files = true).
  { unfold presence_ok. by rewrite Hv, Hfm, Hfs. }
  split.
  - intros Hno. apply query_raise_consistent; [done |].
    unfold check_consistent. rewrite Hfm, Hfs. simpl.
    destruct file_map; try reflexivity. by destruct (Hno d).
  - intros fm -> Hno. apply query_raise_consistent; [done |].
    unfold check_consistent. rewrite Hfm, Hfs. simpl.
    destruct files; try reflexivity. by destruct (Hno d).
Qed.

(** X4 on files given as a list of pairs, the other form [requests] takes. *)
Lemma query_needs_dictionaries_witness :
  query json_encode (__init__ test_session TEST_URI) "query hello"
    (PDict [("message", PNone)])
    (PDict [("0", PList [PStr "variables.message"])])
    (PList [PTuple [PStr "0"; PTuple [PStr "message.txt"; PStr "Welcome";
                                      PStr "text/plain"]]]) []
  = (Raise (AttributeError "'list' object has no attribute 'keys'"), []).
Proof.
  apply (proj2 (query_needs_dictionaries json_encode
                  (__init__ test_session TEST_URI) "query hello"
                  (PDict [("message", PNone)])
                  (PDict [("0", PList [PStr "variables.message"])])
                  (PList [PTuple [PStr "0"; PTuple [PStr "message.txt"; PStr "Welcome";
                                                    PStr "text/plain"]]]) []
                  eq_refl eq_refl eq_refl)
               [("0", PList [PStr "variables.message"])]).
  - reflexivity.
  - discriminate.
Defined.

Lemma len_no_length v st :
  sized v = false ->
  len v st = (Raise (TypeError ("object of type '" ++ type_name v ++ "' has no len()")), st).
Proof. by destruct v. Qed.

Lemma shape_loop_first_bad good v rest st :
  forallb three_components good = true ->
  three_components v = false ->
  for_each (good ++ v :: rest)%list check_value st
  = (Raise (if sized v then ValueError msg_3_tuples
            else TypeError ("object of type '" ++ type_name v ++ "' has no len()")),
     st).
Proof.
  intros Hgood Hv. induction good as [|g good IH]; simpl.
  - unfold bind at 1. unfold check_value at 1. unfold bind.
    destruct (sized v) eqn:Hs.
    + destruct (len_sized v st Hs) as (n & Hn & H3). by rewrite Hn, H3, Hv.
    + by rewrite (len_no_length v st Hs).
  - simpl in Hgood. apply andb_prop in Hgood as [Hg Hgood].
    unfold bind at 1. unfold check_value at 1. unfold bind.
    destruct (len_sized g st (three_components_sized g Hg)) as (n & Hn & H3).
    rewrite Hn, H3, Hg. simpl. by apply IH.
Qed.

(** X5.  The entries of the files are examined in their order, and the first
    one that has no three components decides: a [ValueError] with the
    message of the 3-tuples when it has some other length, the [TypeError] of
    [len] when it has no length; later entries are not looked at, and nothing
    is sent. *)
Theorem query_first_bad_entry json_dumps self q variables fm good k v rest st :
  truthy variables = true -> fm <> [] ->
  set_of (map fst fm) = set_of (map fst (good ++ (k, v) :: rest)%list) ->
  forallb three_components (map snd good) = true ->
  three_components v = false ->
  query json_dumps self q variables (PDict fm) (PDict (good ++ (k, v) :: rest)%list) st
  = (Raise (if sized v then ValueError msg_3_tuples
            else TypeError ("object of type '" ++ type_name v ++ "' has no len()")),
     st).
Proof.
  intros Hv Hfm Hk Hgood Hbad.
  assert (Hne : truthy (PDict (good ++ (k, v) :: rest)%list) = true).
  { simpl. rewrite length_app. simpl. by rewrite Nat.add_succ_r. }
  apply query_raise_complete.
  - unfold presence_ok. rewrite Hv, Hne. by destruct fm.
  - apply check_consistent_keys_ok. unfold keys_ok.
    apply implb_true_iff. intros _. by apply bool_decide_eq_true_2.
  - unfold check_complete. rewrite Hne. unfold when, bind, values, ret.
    rewrite map_app. simpl. by apply shape_loop_first_bad.
Qed.

(** X5 on a complete entry, then [None], then an entry of one component. *)
Lemma query_first_bad_entry_witness :
  query json_encode (__init__ test_session TEST_URI) "query hello"
    (PDict [("a", PNone)])
    (PDict [("0", PStr "variables.a"); ("1", PStr "variables.b");
            ("2", PStr "variables.c")])
    (PDict [("0", PTuple [PStr "a.txt"; PStr "A"; PStr "text/plain"]);
            ("1", PNone);
            ("2", PTuple [PStr "c.txt"])]) []
  = (Raise (TypeError "object of type 'NoneType' has no len()"), []).
Proof.
  apply (query_first_bad_entry json_encode (__init__ test_session TEST_URI)
           "query hello" (PDict [("a", PNone)])
           [("0", PStr "variables.a"); ("1", PStr "variables.b");
            ("2", PStr "variables.c")]
           [("0", PTuple [PStr "a.txt"; PStr "A"; PStr "text/plain"])]
           "1" PNone [("2", PTuple [PStr "c.txt"])] []);
    try reflexivity; try discriminate.
Defined.

(** ** The keys of the file map and of the files *)

Lemma keys_differ (ks ks' : list string) :
  set_of ks <> set_of ks' <->
  exists k, (k ∈ ks /\ k ∉ ks') \/ (k ∈ ks' /\ k ∉ ks).
Proof.
  unfold set_of. split.
  - intros Hne.
    destruct (decide (Forall (fun k => k ∈ ks') ks)) as [H1 | H1].
    + destruct (decide (Forall (fun k => k ∈ ks) ks')) as [H2 | H2].
      * exfalso. apply Hne. apply set_eq. intros x.
        rewrite !elem_of_list_to_set. rewrite Forall_forall in H1, H2.
        split; auto.
      * apply not_Forall_Exists in H2; [| intros x; apply _].
        apply Exists_exists in H2 as (k & Hin & Hnot). exists k. by right.
    + apply not_Forall_Exists in H1; [| intros x; apply _].
      apply Exists_exists in H1 as (k & Hin & Hnot). exists k. by left.
  - intros (k & [[Hin Hnot] | [Hin Hnot]]) Heq; apply Hnot.
    + apply (elem_of_list_to_set (C := gset string)). rewrite <- Heq.
      by apply elem_of_list_to_set.
    + apply (elem_of_list_to_set (C := gset string)). rewrite Heq.
      by apply elem_of_list_to_set.
Qed.

(** X6.  With variables, a non-empty file map and non-empty files, [query]
    ends in the error of the keys exactly when some key is in one of the two
    dictionaries and not in the other; the order of the keys plays no part. *)
Theorem query_keys_differ json_dumps self q variables fm fs st :
  truthy variables = true -> fm <> [] -> fs <> [] ->
  (query json_dumps self q variables (PDict fm) (PDict fs) st
   = (Raise (ValueError msg_same_keys), st) <->
   exists k, (k ∈ map fst fm /\ k ∉ map fst fs) \/ (k ∈ map fst fs /\ k ∉ map fst fm)).
Proof.
  intros Hv Hfm Hfs.
  assert (Hp : presence_ok variables (PDict fm) (PDict fs) = true).
  { unfold presence_ok. rewrite Hv. by destruct fm, fs. }
  assert (Ht : truthy (PDict fm) && truthy (PDict fs) = true) by by destruct fm, fs.
  rewrite <- keys_differ. split.
  - intros He. apply (f_equal fst) in He. simpl in He.
    apply query_value_error in He as [[Hp' _] | [(_ & Hk & _) | (_ & _ & _ & Hm)]].
    + congruence.
    + unfold keys_ok in Hk. rewrite Ht in Hk. simpl in Hk. by case_bool_decide.
    + by apply messages_differ in Hm.
  - intros Hne. apply query_raise_consistent; [done |].
    rewrite check_consistent_run. unfold keys_ok. rewrite Ht. simpl.
    by case_bool_decide.
Qed.

(** X6 on the dictionaries of [test_file_map_keys_are_file_keys]: the key [0]
    of the files is not in the file map. *)
Lemma query_keys_differ_witness :
  query json_encode (__init__ test_session TEST_URI) "query { block { id } }"
    (PDict [("proposal", PNone); ("block", PNone); ("target", PNone)])
    (PDict [("1", PList [PStr "variables.proposal"]);
            ("2", PList [PStr "variables.block"])])
    (PDict [("0", PTuple [PStr "a"; PStr "b"; PStr "text/plain"]);
            ("1", PTuple [PStr "c"; PStr "d"; PStr "text/plain"])]) []
  = (Raise (ValueError msg_same_keys), []).
Proof.
  apply (query_keys_differ json_encode (__init__ test_session TEST_URI)
           "query { block { id } }"
           (PDict [("proposal", PNone); ("block", PNone); ("target", PNone)])
           [("1", PList [PStr "variables.proposal"]);
            ("2", PList [PStr "variables.block"])]
           [("0", PTuple [PStr "a"; PStr "b"; PStr "text/plain"]);
            ("1", PTuple [PStr "c"; PStr "d"; PStr "text/plain"])] []);
    [reflexivity | discriminate | discriminate |].
  exists "0". right. split.
  - apply (bool_decide_unpack _). vm_compute. exact I.
  - apply (bool_decide_unpack _). vm_compute. exact I.
Defined.

(** ** What the checks look at *)



(** X8.  A query without files never asks [json.dumps]: with files that are
    false as a condition, [query] is the same whatever the encoder; the
    payload goes to the [requests] session as the dictionary it is. *)
Theorem query_without_files_needs_no_encoder
  json_dumps json_dumps' self q variables file_map files st :
  truthy files = false ->
  query json_dumps self q variables file_map files st
  = query json_dumps' self q variables file_map files st.
Proof.
  intros Hf. destruct (presence_ok variables file_map files) eqn:Hp.
  - by rewrite !query_checked_no_files.
  - by rewrite !query_raise_supplied.
Qed.

(** X8 with the reference encoder and an encoder that always fails. *)
Lemma query_without_files_needs_no_encoder_witness :
  query json_encode (__init__ test_session TEST_URI) "query hello"
    (PDict [("name", PStr "John Doe")]) PNone (PDict []) []
  = query (fun _ => Fails not_serializable) (__init__ test_session TEST_URI)
      "query hello" (PDict [("name", PStr "John Doe")]) PNone (PDict []) [].
Proof.
  apply (query_without_files_needs_no_encoder json_encode
           (fun _ => Fails not_serializable) (__init__ test_session TEST_URI)
           "query hello" (PDict [("name", PStr "John Doe")]) PNone (PDict []) []).
  reflexivity.
Defined.

(** ** Attribute access and the calls that follow *)

(** X9.  Attribute access through [__getattr__] makes no call on the
    [requests] session.  Calling what it gave makes no call and raises, or
    makes the one call of the method of that name: with the URL of the
    session in front of the arguments for an HTTP verb, with the arguments as
    they are for every other method. *)
Theorem getattr_then_call self item st :
  snd (__getattr__ self item st) = st /\
  forall o, fst (__getattr__ self item st) = Ok o ->
    forall args kwargs st1,
      (exists e, call o args kwargs st1 = (Raise e, st1)) \/
      call o args kwargs st1
      = perform (_session self)
          (Call item (if bool_decide (item ∈ _HTTP_VERBS)
                      then PStr (_uri self) :: args else args) kwargs) st1.
Proof.
  unfold __getattr__, hasattr, bind, when, getattr.
  destruct (session_attr (_session self) item) as [[v|]|] eqn:Hattr; simpl;
    destruct (bool_decide (item ∈ _HTTP_VERBS)) eqn:Hverb; simpl;
    (split; [reflexivity |]); try discriminate;
    intros o [= <-] args kwargs st1;
    unfold call, f, bind, getattr; rewrite ?Hattr; simpl.
  - left. eexists. reflexivity.
  - left. eexists. reflexivity.
  - by right.
  - by right.
Qed.

(** X9 on [request], a method of [requests.Session] that is no HTTP verb: it
    is called without the URL of the session. *)
Lemma getattr_then_call_witness :
  let session := __init__ test_session TEST_URI in
  let args := [PStr "GET"; PStr "http://localhost:5000/graphql"] in
  (exists e, call (Delegated (BoundMethod test_session "request")) args [] []
             = (Raise e, [])) \/
  call (Delegated (BoundMethod test_session "request")) args [] []
  = perform test_session (Call "request" args []) [].
Proof.
  intros session args.
  apply (proj2 (getattr_then_call session "request" [])
               (Delegated (BoundMethod test_session "request")) eq_refl args [] []).
Defined.

(** ** The property [auth] *)

Lemma query_without_upload_log self self' q variables st :
  _uri self = _uri self' ->
  session_attr (_session self) "post" = session_attr (_session self') "post" ->
  snd (query_without_upload self q variables st)
  = snd (query_without_upload self' q variables st).
Proof.
  intros Huri Hpost. unfold query_without_upload, bind, getattr.
  rewrite Hpost, Huri.
  by destruct (session_attr (_session self') "post") as [[v|]|].
Qed.

Lemma query_with_upload_log json_dumps self self' q variables file_map files st :
  _uri self = _uri self' ->
  session_attr (_session self) "post" = session_attr (_session self') "post" ->
  snd (query_with_upload json_dumps self q variables file_map files st)
  = snd (query_with_upload json_dumps self' q variables file_map files st).
Proof.
  intros Huri Hpost. unfold query_with_upload.
  destruct (json_dumps _) as [ops|e]; [| done].
  rewrite !(bind_stateless_ok (from_library (Returns ops)) _ ops st st
              (stateless_from_library _) eq_refl).
  destruct (json_dumps file_map) as [mp|e]; [| done].
  rewrite !(bind_stateless_ok (from_library (Returns mp)) _ mp st st
              (stateless_from_library _) eq_refl).
  destruct (stateless_keys files) as [[ks|e] Hks].
  2:{ by rewrite !(bind_stateless_raise _ _ e st st (stateless_keys _) (Hks st)). }
  rewrite !(bind_stateless_ok _ _ ks st st (stateless_keys _) (Hks st)).
  assert (Hst : stateless (dict_comprehension ks (fun key => getitem files key) []))
    by (apply stateless_dict_comprehension; intros k; apply stateless_getitem).
  pose proof Hst as [[fd|e] Hfd].
  2:{ by rewrite !(bind_stateless_raise _ _ e st st Hst (Hfd st)). }
  rewrite !(bind_stateless_ok _ _ fd st st Hst (Hfd st)).
  unfold bind, getattr. rewrite Hpost, Huri.
  by destruct (session_attr (_session self') "post") as [[v|]|].
Qed.

Lemma query_log json_dumps self self' q variables file_map files st :
  _uri self = _uri self' ->
  session_attr (_session self) "post" = session_attr (_session self') "post" ->
  snd (query json_dumps self q variables file_map files st)
  = snd (query json_dumps self' q variables file_map files st).
Proof.
  intros Huri Hpost.
  destruct (presence_ok variables file_map files) eqn:Hp.
  2:{ by rewrite !query_raise_supplied. }
  destruct (truthy files) eqn:Hf.
  2:{ rewrite !query_checked_no_files by done. by apply query_without_upload_log. }
  destruct (stateless_check_consistent file_map files) as [[[]|e] H2].
  2:{ by rewrite !(query_raise_consistent _ _ _ _ _ _ e st Hp (H2 st)). }
  destruct (stateless_check_complete files) as [[[]|e] H3].
  2:{ by rewrite !(query_raise_complete _ _ _ _ _ _ e st Hp (H2 st) (H3 st)). }
  pose proof (check_complete_inv _ _ _ (H3 st)) as Hs.
  unfold shape_ok in Hs. rewrite Hf in Hs. simpl in Hs.
  destruct files as [| | | | | |fs|]; try discriminate.
  assert (Hne : fs <> []) by by destruct fs.
  rewrite !(query_checked_files _ _ _ _ _ _ _ Hp (H2 st) (H3 st) Hne).
  by apply query_with_upload_log.
Qed.

(** X10.  After the setter of [auth], the getter gives the value that was
    set, the URL of the session is the one it was, and [query] sends what it
    would have sent before: the same call, or none. *)
Theorem auth_setter_keeps_requests self v self' :
  auth_setter self v self' ->
  (forall st, auth self' st = (Ok (Plain v), st)) /\
  _uri self' = _uri self /\
  (forall json_dumps q variables file_map files st,
     snd (query json_dumps self' q variables file_map files st)
     = snd (query json_dumps self q variables file_map files st)).
Proof.
  intros [c' [c'' Hattr]]. split; [| split].
  - intros st. unfold auth, getattr. simpl. by rewrite Hattr.
  - reflexivity.
  - intros json_dumps q variables file_map files st.
    apply query_log; [reflexivity |]. simpl. by rewrite Hattr.
Qed.

(** X10 on the token of [test_authentication_support]. *)
Lemma auth_setter_keeps_requests_witness :
  let token := PObj "TokenAuth" 1 in
  let session := __init__ test_session TEST_URI in
  let session' :=
    {| _uri := TEST_URI;
       _session :=
         {| session_attr n := if String.eqb n "auth" then Some (Data token)
                              else session_attr test_session n;
            session_answer := session_answer test_session |} |} in
  (forall st, auth session' st = (Ok (Plain token), st)) /\
  _uri session' = _uri session /\
  (forall json_dumps q variables file_map files st,
     snd (query json_dumps session' q variables file_map files st)
     = snd (query json_dumps session q variables file_map files st)).
Proof.
  intros token session session'.
  apply (auth_setter_keeps_requests session token session').
  apply (auth_setter_intro session token). apply setattr_intro. reflexivity.
Defined.
